(** * Ferry operator integration service: a shallow embedding

    Source: [app/services/ferry_integration.py] (adapters for the Lyko
    aggregator and for CTN, and [FerryOperatorIntegrationService]) together
    with the columns of [FerryOperator] in [app/models/ferry.py] that the
    service reads.

    Conventions of the embedding.
    - Python objects decoded from JSON are the inductive [value].  A [str] is
      a UTF-8 byte string, so that byte-wise lexicographic order is Python's
      code-point order.  A [float] is carried as the [Decimal] that its
      [str()] spells, which is the only thing the service ever does to a
      float price.
    - An exception is a value of [exn]; only subclasses of [Exception] are in
      the model, since cancellation and interpreter exit are not caught by
      [except Exception] in any language version.
    - Effects (log records, HTTP calls, exceptions, the service's own
      attributes) live in the monad [M].  The tasks of one [asyncio.gather]
      are run one after the other in task order: [gather] returns its results
      in task order whatever the completion order, and no task shares state
      with another. *)

From Stdlib Require Import List String Ascii ZArith NArith Bool Lia.
From Stdlib Require Import Permutation Sorted DecimalString.
Import ListNotations.

Set Warnings "-register-all".
Local Open Scope string_scope.
Local Open Scope Z_scope.

(** ** Exceptions and results *)

Record exn : Type := Exn { exn_class : string; exn_msg : string }.

(** [str(e)] *)
Definition str_exn (e : exn) : string := exn_msg e.

Inductive res (A : Type) : Type :=
| Ok (a : A)
| Raise (e : exn).
Arguments Ok {A} a.
Arguments Raise {A} e.

Definition res_bind {A B} (r : res A) (k : A -> res B) : res B :=
  match r with
  | Ok a => k a
  | Raise e => Raise e
  end.

Declare Scope res_scope.
Delimit Scope res_scope with res.
Notation "x <- r ;; k" := (res_bind r (fun x => k))
  (at level 61, r at next level, right associativity) : res_scope.

(** ** Characters and decimal digits *)

Module Chars.

Definition code (c : ascii) : N := N_of_ascii c.

Definition is_digit (c : ascii) : bool :=
  ((48 <=? code c) && (code c <=? 57))%N.

Definition digit_val (c : ascii) : N := (code c - 48)%N.

Fixpoint digits_value_from (acc : N) (l : list ascii) : N :=
  match l with
  | [] => acc
  | c :: l' => digits_value_from (10 * acc + digit_val c)%N l'
  end.

(** [int(ds)] for a run of ASCII digits *)
Definition digits_value (l : list ascii) : N := digits_value_from 0%N l.

(** the longest prefix of digits, and what follows it *)
Fixpoint span_digits (l : list ascii) : list ascii * list ascii :=
  match l with
  | [] => ([], [])
  | c :: l' =>
      if is_digit c
      then let '(ds, rest) := span_digits l' in (c :: ds, rest)
      else ([], l)
  end.

Definition lower (c : ascii) : ascii :=
  if ((65 <=? code c) && (code c <=? 90))%N
  then ascii_of_N (code c + 32)
  else c.

(** ASCII characters for which [str.isspace] holds *)
Definition is_space (c : ascii) : bool :=
  (((9 <=? code c) && (code c <=? 13)) ||
   ((28 <=? code c) && (code c <=? 32)))%N.

Fixpoint lstrip (l : list ascii) : list ascii :=
  match l with
  | [] => []
  | c :: l' => if is_space c then lstrip l' else l
  end.

(** [s.strip()] *)
Definition strip (l : list ascii) : list ascii :=
  rev (lstrip (rev (lstrip l))).

(** [s.replace("_", "")] *)
Definition remove_underscores (l : list ascii) : list ascii :=
  filter (fun c => negb (Ascii.eqb c "_")) l.

(** a byte that continues a UTF-8 sequence: 0b10xxxxxx *)
Definition is_continuation (c : ascii) : bool :=
  ((128 <=? code c) && (code c <=? 191))%N.

(** the code points of a UTF-8 string, each as the string of its bytes:
    what iterating over a [str] yields *)
Fixpoint code_points (l : list ascii) : list string :=
  match l with
  | [] => []
  | c :: l' =>
      match code_points l' with
      | p :: ps =>
          if match l' with c' :: _ => is_continuation c' | [] => false end
          then String c p :: ps
          else String c EmptyString :: p :: ps
      | [] => [String c EmptyString]
      end
  end.

End Chars.

(** ** [decimal.Decimal] *)

(** A finite number is [(-1)^neg * coeff * 10^exp]; a NaN keeps its sign, its
    kind and its diagnostic payload. *)
Inductive Decimal : Type :=
| DFin (neg : bool) (coeff : N) (exp : Z)
| DInf (neg : bool)
| DNaN (neg : bool) (signaling : bool) (payload : N).

Module DecimalSyntax.
Import Chars.

Definition lit (s : string) : list ascii := list_ascii_of_string s.

Definition list_ascii_eqb (a b : list ascii) : bool :=
  String.eqb (string_of_list_ascii a) (string_of_list_ascii b).

(** the optional exponent part (an [E], an optional sign, at least one
    digit) and the end of the string, applied to what follows the
    mantissa *)
Definition parse_exponent (l : list ascii) : option Z :=
  match l with
  | [] => Some 0
  | c :: l1 =>
      if Ascii.eqb (lower c) "e" then
        let '(neg, l2) :=
          match l1 with
          | "-"%char :: t => (true, t)
          | "+"%char :: t => (false, t)
          | _ => (false, l1)
          end in
        let '(ds, rest) := span_digits l2 in
        match ds, rest with
        | _ :: _, [] =>
            Some (if neg then - Z.of_N (digits_value ds)
                  else Z.of_N (digits_value ds))
        | _, _ => None
        end
      else None
  end.

(** digits with an optional point, at least one digit in all, then the
    optional exponent part: the coefficient is [int(intpart + fracpart)],
    the exponent is [exp - len(fracpart)] *)
Definition parse_number (neg : bool) (l : list ascii) : option Decimal :=
  let '(ip, l1) := span_digits l in
  let '(fp, l2) :=
    match l1 with
    | "."%char :: t => span_digits t
    | _ => ([], l1)
    end in
  match (ip ++ fp)%list with
  | [] => None
  | ds =>
      match parse_exponent l2 with
      | Some e =>
          Some (DFin neg (digits_value ds) (e - Z.of_nat (List.length fp)))
      | None => None
      end
  end.

(** [Inf], [Infinity], or [NaN] / [sNaN] followed by diagnostic digits,
    ignoring case *)
Definition parse_special (neg : bool) (l : list ascii) : option Decimal :=
  let low := map lower l in
  if list_ascii_eqb low (lit "inf") || list_ascii_eqb low (lit "infinity")
  then Some (DInf neg)
  else
    match low with
    | "n"%char :: "a"%char :: "n"%char :: ds =>
        if forallb is_digit ds
        then Some (DNaN neg false (digits_value ds)) else None
    | "s"%char :: "n"%char :: "a"%char :: "n"%char :: ds =>
        if forallb is_digit ds
        then Some (DNaN neg true (digits_value ds)) else None
    | _ => None
    end.

(** [Decimal(s)] for a [str]: [s.strip().replace("_", "")] is matched
    against the numeric-string grammar; [None] stands for the
    [InvalidOperation] that a string outside the grammar raises.  ASCII
    digits and white space only, and without the bounds that an
    implementation puts on exponents and on the number of digits: it is
    the constructor on the plain numerals of the examples.  The statements
    on the response mappers are made for any constructor (see
    [build_result_with]). *)
Definition Decimal_of_string (s : string) : option Decimal :=
  let l := remove_underscores (strip (list_ascii_of_string s)) in
  let '(neg, body) :=
    match l with
    | "-"%char :: t => (true, t)
    | "+"%char :: t => (false, t)
    | _ => (false, l)
    end in
  match parse_number neg body with
  | Some d => Some d
  | None => parse_special neg body
  end.

End DecimalSyntax.

(** the coefficient with its sign *)
Definition signed (neg : bool) (c : N) : Z :=
  if neg then - Z.of_N c else Z.of_N c.

(** Numeric comparison of two numbers, neither of them a NaN
    ([Decimal._cmp]): finite numbers are brought to the smaller exponent. *)
Definition Decimal_cmp (a b : Decimal) : comparison :=
  match a, b with
  | DFin na ca ea, DFin nb cb eb =>
      let m := Z.min ea eb in
      (signed na ca * 10 ^ (ea - m) ?= signed nb cb * 10 ^ (eb - m))
  | DFin _ _ _, DInf nb => if nb then Gt else Lt
  | DInf na, DFin _ _ _ => if na then Lt else Gt
  | DInf na, DInf nb =>
      match na, nb with
      | true, false => Lt
      | false, true => Gt
      | _, _ => Eq
      end
  | _, _ => Eq
  end.

Definition is_nan (d : Decimal) : bool :=
  match d with DNaN _ _ _ => true | _ => false end.

Definition is_snan (d : Decimal) : bool :=
  match d with DNaN _ true _ => true | _ => false end.

Definition InvalidOperation : exn :=
  Exn "InvalidOperation" "[<class 'decimal.InvalidOperation'>]".

Definition ConversionSyntax : exn :=
  Exn "InvalidOperation" "[<class 'decimal.ConversionSyntax'>]".

(** [a == b] on [Decimal]: a signaling NaN raises, a quiet NaN equals
    nothing. *)
Definition Decimal_eq (a b : Decimal) : res bool :=
  if is_snan a || is_snan b then Raise InvalidOperation
  else if is_nan a || is_nan b then Ok false
  else Ok (match Decimal_cmp a b with Eq => true | _ => false end).

(** [a < b] on [Decimal]: any NaN raises. *)
Definition Decimal_lt (a b : Decimal) : res bool :=
  if is_nan a || is_nan b then Raise InvalidOperation
  else Ok (match Decimal_cmp a b with Lt => true | _ => false end).

(** ** Python values decoded from JSON *)

Inductive value : Type :=
| VNone
| VBool (b : bool)
| VInt (z : Z)
| VFloat (d : Decimal)
| VStr (s : string)
| VList (l : list value)
| VDict (kv : list (string * value)).

Module Py.

Definition type_name (v : value) : string :=
  match v with
  | VNone => "NoneType"
  | VBool _ => "bool"
  | VInt _ => "int"
  | VFloat _ => "float"
  | VStr _ => "str"
  | VList _ => "list"
  | VDict _ => "dict"
  end.

(** [str(z)] for an [int] *)
Definition str_int (z : Z) : string := NilZero.string_of_int (Z.to_int z).

(** [f"{o}"] for an optional [str] *)
Definition str_opt (o : option string) : string :=
  match o with
  | Some s => s
  | None => "None"
  end.

(** the items of a [dict], in insertion order; keys are unique *)
Fixpoint dict_find {A} (kv : list (string * A)) (k : string) : option A :=
  match kv with
  | [] => None
  | (k', v) :: kv' => if String.eqb k' k then Some v else dict_find kv' k
  end.

(** [d[k] = v]: a present key keeps its place, a new key goes last *)
Fixpoint dict_set {A} (kv : list (string * A)) (k : string) (v : A)
  : list (string * A) :=
  match kv with
  | [] => [(k, v)]
  | (k', v') :: kv' =>
      if String.eqb k' k then (k, v) :: kv' else (k', v') :: dict_set kv' k v
  end.

Definition AttributeError (v : value) (attr : string) : exn :=
  Exn "AttributeError"
      ("'" ++ type_name v ++ "' object has no attribute '" ++ attr ++ "'").

Definition not_iterable (v : value) : exn :=
  Exn "TypeError" ("'" ++ type_name v ++ "' object is not iterable").

Definition not_supported (a b : value) : exn :=
  Exn "TypeError"
      ("'<' not supported between instances of '" ++ type_name a
       ++ "' and '" ++ type_name b ++ "'").

Definition dict_get {A} (kv : list (string * A)) (k : string) (default : A)
  : A :=
  match dict_find kv k with
  | Some x => x
  | None => default
  end.

(** [v.get(k, default)]: only a [dict] has the method *)
Definition get (v : value) (k : string) (default : value) : res value :=
  match v with
  | VDict kv => Ok (dict_get kv k default)
  | _ => Raise (AttributeError v "get")
  end.

(** [for item in v]: the elements of a list, the keys of a dict, the
    characters of a string *)
Definition iter (v : value) : res (list value) :=
  match v with
  | VList l => Ok l
  | VDict kv => Ok (map (fun p => VStr (fst p)) kv)
  | VStr s => Ok (map VStr (Chars.code_points (list_ascii_of_string s)))
  | _ => Raise (not_iterable v)
  end.

(** [Decimal(str(v))].  [str] of a list or of a dict opens with a bracket
    or a brace, which no numeric string does; [str] of a float always is a
    numeric string, the one the float is carried as.  [str] of an [int] is
    taken to succeed whatever its length. *)
Definition Decimal_of_str (v : value) : res Decimal :=
  let of_string s :=
    match DecimalSyntax.Decimal_of_string s with
    | Some d => Ok d
    | None => Raise ConversionSyntax
    end in
  match v with
  | VNone => of_string "None"
  | VBool b => of_string (if b then "True" else "False")
  | VInt z => of_string (str_int z)
  | VFloat d => Ok d
  | VStr s => of_string s
  | VList _ | VDict _ => Raise ConversionSyntax
  end.

(** the number a [bool], [int] or [float] stands for in a comparison *)
Definition as_number (v : value) : option Decimal :=
  match v with
  | VBool b => Some (DFin false (if b then 1 else 0)%N 0)
  | VInt z => Some (DFin (z <? 0) (Z.abs_N z) 0)
  | VFloat d => Some d
  | _ => None
  end.

Definition num_eq (a b : Decimal) : bool :=
  negb (is_nan a || is_nan b)
  && match Decimal_cmp a b with Eq => true | _ => false end.

Definition num_lt (a b : Decimal) : bool :=
  negb (is_nan a || is_nan b)
  && match Decimal_cmp a b with Lt => true | _ => false end.

(** [a == b] *)
Fixpoint eq (a b : value) {struct a} : bool :=
  match a, b with
  | VNone, VNone => true
  | VStr s, VStr t => String.eqb s t
  | VList la, VList lb =>
      (fix all2 (la lb : list value) {struct la} : bool :=
         match la, lb with
         | [], [] => true
         | x :: la', y :: lb' => eq x y && all2 la' lb'
         | _, _ => false
         end) la lb
  | VDict da, VDict db =>
      Nat.eqb (List.length da) (List.length db)
      && (fix sub (da : list (string * value)) {struct da} : bool :=
            match da with
            | [] => true
            | (k, x) :: da' =>
                match dict_find db k with
                | Some y => eq x y
                | None => false
                end && sub da'
            end) da
  | _, _ =>
      match as_number a, as_number b with
      | Some x, Some y => num_eq x y
      | _, _ => false
      end
  end.

(** [a < b] *)
Fixpoint lt (a b : value) {struct a} : res bool :=
  match a, b with
  | VStr s, VStr t => Ok (String.ltb s t)
  | VList la, VList lb =>
      (fix lex (la lb : list value) {struct la} : res bool :=
         match la, lb with
         | [], [] => Ok false
         | [], _ :: _ => Ok true
         | _ :: _, [] => Ok false
         | x :: la', y :: lb' => if eq x y then lex la' lb' else lt x y
         end) la lb
  | _, _ =>
      match as_number a, as_number b with
      | Some x, Some y => Ok (num_lt x y)
      | _, _ => Raise (not_supported a b)
      end
  end.

End Py.

(** ** Normalised search data *)

Record date : Type := { year : N; month : N; day : N }.

Definition pad (width : nat) (s : string) : string :=
  string_of_list_ascii (repeat "0"%char (width - String.length s)) ++ s.

Definition str_N (n : N) : string := NilZero.string_of_uint (N.to_uint n).

(** [d.isoformat()] *)
Definition isoformat (d : date) : string :=
  pad 4 (str_N (year d)) ++ "-" ++ pad 2 (str_N (month d)) ++ "-"
  ++ pad 2 (str_N (day d)).

Record SearchRequest : Type := {
  departure_port : string;
  arrival_port : string;
  departure_date : date;
  return_date : option date;
  passengers : Z;
  vehicles : Z;
  passenger_types : list (string * Z);
  vehicle_types : list (string * Z)
}.

(** The dataclass checks no field type: every field but [base_price] holds
    whatever the operator sent. *)
Record SearchResponse : Type := {
  operator_code : value;
  route_id : value;
  departure_time : value;
  arrival_time : value;
  duration_minutes : value;
  available_seats : value;
  available_vehicles : value;
  base_price : Decimal;
  currency : value;
  booking_reference : value;
  amenities : value;
  vessel_name : value
}.

(** The columns of [FerryOperator] that the service reads, and the timeout
    column, which it does not. *)
Record FerryOperator : Type := {
  code : string;
  is_active : bool;
  integration_status : string;
  api_endpoint : option string;
  api_key_encrypted : option string;
  api_timeout_seconds : Z
}.

(** ** Effects: log records, HTTP calls, exceptions, state *)

Inductive level : Type := INFO | WARNING | ERROR.

(** What [session.post] / [session.get] is given. *)
Record HttpRequest : Type := {
  http_method : string;
  url : string;
  headers : list (string * option string);
  json_payload : option value;
  timeout_total : Z
}.

(** What the [async with] block sees of a reply: the status, and what
    awaiting [response.json()] and [response.text()] gives. *)
Record Response : Type := {
  status : Z;
  json_body : res value;
  text_body : res string
}.

(** The network as the shared [aiohttp.ClientSession] shows it: a call
    either raises (refused connection, timeout, ...) or yields a reply. *)
Definition Session : Type := HttpRequest -> res Response.

Inductive event : Type :=
| Log (lv : level) (logger : string) (msg : string)
| Call (rq : HttpRequest).

Definition M (St A : Type) : Type :=
  Session -> St -> res A * St * list event.

Definition ret {St A} (a : A) : M St A :=
  fun _ st => (Ok a, st, []).

Definition bind {St A B} (m : M St A) (k : A -> M St B) : M St B :=
  fun net st =>
    match m net st with
    | (Ok a, st1, ev1) =>
        match k a net st1 with
        | (r, st2, ev2) => (r, st2, (ev1 ++ ev2)%list)
        end
    | (Raise e, st1, ev1) => (Raise e, st1, ev1)
    end.

Declare Scope eff_scope.
Delimit Scope eff_scope with eff.
Notation "x <- m ;; k" := (bind m (fun x => k))
  (at level 61, m at next level, right associativity) : eff_scope.
Notation "m ;; k" := (bind m (fun _ => k))
  (at level 61, right associativity) : eff_scope.

Definition raise {St A} (e : exn) : M St A :=
  fun _ st => (Raise e, st, []).

Definition of_res {St A} (r : res A) : M St A :=
  fun _ st => (r, st, []).

(** [try: body / except Exception as e: handler e] *)
Definition try_except {St A} (body : M St A) (handler : exn -> M St A)
  : M St A :=
  fun net st =>
    match body net st with
    | (Ok a, st1, ev1) => (Ok a, st1, ev1)
    | (Raise e, st1, ev1) =>
        match handler e net st1 with
        | (r, st2, ev2) => (r, st2, (ev1 ++ ev2)%list)
        end
    end.

Definition log {St} (lv : level) (logger msg : string) : M St unit :=
  fun _ st => (Ok tt, st, [Log lv logger msg]).

Definition send {St} (rq : HttpRequest) : M St Response :=
  fun net st => (net rq, st, [Call rq]).

Definition get_state {St} : M St St :=
  fun _ st => (Ok st, st, []).

Definition put_state {St} (st' : St) : M St unit :=
  fun _ _ => (Ok tt, st', []).

(** a method of a stateless object, called from a stateful one *)
Definition lift {St A} (m : M unit A) : M St A :=
  fun net st => match m net tt with (r, _, ev) => (r, st, ev) end.

(** a task awaited with its exception, if any, kept as its outcome *)
Definition attempt {St A} (m : M St A) : M St (res A) :=
  fun net st => match m net st with (r, st1, ev) => (Ok r, st1, ev) end.

(** [await asyncio.gather( *tasks, return_exceptions=True)] *)
Fixpoint gather {St A} (tasks : list (M St A)) : M St (list (res A)) :=
  match tasks with
  | [] => ret []
  | t :: ts =>
      (r <- attempt t ;;
       rs <- gather ts ;;
       ret (r :: rs))%eff
  end.

Definition result_of {St A} (x : res A * St * list event) : res A :=
  fst (fst x).
Definition state_of {St A} (x : res A * St * list event) : St :=
  snd (fst x).
Definition events_of {St A} (x : res A * St * list event) : list event :=
  snd x.

(** ** Adapters *)

Inductive AdapterClass : Type :=
| BaseFerryOperatorAdapterClass
| LykoAggregatorAdapterClass
| CTNDirectAdapterClass.

(** An adapter object: its class, its attributes and its methods.  A
    subclass is the record of its parent with the overridden methods
    replaced.  The [session] attribute is not a field: the calls of an
    adapter go to the network that the run is given, and two adapters built
    from one configuration are equal here although they are distinct
    objects, bound to distinct sessions, in the program. *)
Module Adapter.
Record t : Type := {
  class : AdapterClass;
  operator : FerryOperator;
  base_url : option string;
  api_key : option string;
  search_routes : SearchRequest -> M unit (list SearchResponse);
  create_booking : value -> M unit value;
  get_booking_status : string -> M unit value;
  cancel_booking : string -> M unit value;
  health_check : M unit bool
}.
End Adapter.

Definition adapter_logger (operator : FerryOperator) : string :=
  "ferry_adapter." ++ code operator.

Definition NotImplementedError : exn := Exn "NotImplementedError" "".

Module BaseFerryOperatorAdapter.

Definition new (operator : FerryOperator) : Adapter.t := {|
  Adapter.class := BaseFerryOperatorAdapterClass;
  Adapter.operator := operator;
  Adapter.base_url := None;
  Adapter.api_key := None;
  Adapter.search_routes := fun _ => raise NotImplementedError;
  Adapter.create_booking := fun _ => raise NotImplementedError;
  Adapter.get_booking_status := fun _ => raise NotImplementedError;
  Adapter.cancel_booking := fun _ => raise NotImplementedError;
  Adapter.health_check := raise NotImplementedError
|}.

End BaseFerryOperatorAdapter.

(** The loop shared by both response mappers:
    [for item in items: try: results.append(build(item)) except Exception
    as e: logger.warning(f"{prefix}{e}"); continue]. *)
Fixpoint append_parsed {St} (logger prefix : string)
    (build : value -> res SearchResponse)
    (items : list value) (results : list SearchResponse)
  : M St (list SearchResponse) :=
  match items with
  | [] => ret results
  | item :: rest =>
      (results' <-
         try_except
           (result <- of_res (build item) ;;
            ret (results ++ [result])%list)
           (fun e =>
              log WARNING logger (prefix ++ str_exn e) ;;
              ret results) ;;
       append_parsed logger prefix build rest results')%eff
  end.

Definition int_dict (d : list (string * Z)) : value :=
  VDict (map (fun p => (fst p, VInt (snd p))) d).

Definition error_dict (msg : string) : value :=
  VDict [("error", VStr msg)].

Module LykoAggregatorAdapter.

Definition base_url : string := "https://api.lyko.tech/v1".

(** one [SearchResponse(...)] call: the arguments are evaluated in
    order.  [Decimal_of_str] is [Decimal(str(x))] as the interpreter that
    runs the adapter performs it. *)
Definition build_result_with (Decimal_of_str : value -> res Decimal)
    (operator : FerryOperator) (item : value) : res SearchResponse :=
  (operator_code <- Py.get item "operator_code" (VStr (code operator)) ;;
   route_id <- Py.get item "route_id" VNone ;;
   departure_time <- Py.get item "departure_time" VNone ;;
   arrival_time <- Py.get item "arrival_time" VNone ;;
   duration_minutes <- Py.get item "duration_minutes" (VInt 0) ;;
   available_seats <- Py.get item "available_seats" (VInt 0) ;;
   available_vehicles <- Py.get item "available_vehicles" (VInt 0) ;;
   price <- Py.get item "price" (VInt 0) ;;
   base_price <- Decimal_of_str price ;;
   currency <- Py.get item "currency" (VStr "EUR") ;;
   booking_reference <- Py.get item "booking_reference" VNone ;;
   amenities <- Py.get item "amenities" (VList []) ;;
   vessel_name <- Py.get item "vessel_name" (VStr "") ;;
   Ok {| operator_code := operator_code;
         route_id := route_id;
         departure_time := departure_time;
         arrival_time := arrival_time;
         duration_minutes := duration_minutes;
         available_seats := available_seats;
         available_vehicles := available_vehicles;
         base_price := base_price;
         currency := currency;
         booking_reference := booking_reference;
         amenities := amenities;
         vessel_name := vessel_name |})%res.

Definition build_result : FerryOperator -> value -> res SearchResponse :=
  build_result_with Py.Decimal_of_str.

Definition _parse_search_response_with {St}
    (Decimal_of_str : value -> res Decimal) (operator : FerryOperator)
    (data : value) : M St (list SearchResponse) :=
  (found <- of_res (Py.get data "results" (VList [])) ;;
   items <- of_res (Py.iter found) ;;
   append_parsed (adapter_logger operator)
     "Failed to parse search result: "
     (build_result_with Decimal_of_str operator) items [])%eff.

Definition _parse_search_response {St}
  : FerryOperator -> value -> M St (list SearchResponse) :=
  _parse_search_response_with Py.Decimal_of_str.

Definition search_payload (operator : FerryOperator)
    (request : SearchRequest) : value :=
  VDict [
    ("departure_port", VStr (departure_port request));
    ("arrival_port", VStr (arrival_port request));
    ("departure_date", VStr (isoformat (departure_date request)));
    ("return_date",
      match return_date request with
      | Some d => VStr (isoformat d)
      | None => VNone
      end);
    ("passengers", VInt (passengers request));
    ("vehicles", VInt (vehicles request));
    ("passenger_types", int_dict (passenger_types request));
    ("vehicle_types", int_dict (vehicle_types request));
    ("operators", VList [VStr (code operator)])
  ].

Definition search_call (operator : FerryOperator) (request : SearchRequest)
  : HttpRequest := {|
  http_method := "POST";
  url := base_url ++ "/search";
  headers :=
    [("Authorization",
       Some ("Bearer " ++ Py.str_opt (api_key_encrypted operator)));
     ("Content-Type", Some "application/json")];
  json_payload := Some (search_payload operator request);
  timeout_total := 30
|}.

Definition search_routes (operator : FerryOperator)
    (request : SearchRequest) : M unit (list SearchResponse) :=
  try_except
    (response <- send (search_call operator request) ;;
     if status response =? 200 then
       data <- of_res (json_body response) ;;
       _parse_search_response operator data
     else
       text <- of_res (text_body response) ;;
       log ERROR (adapter_logger operator)
         ("Search failed: " ++ Py.str_int (status response) ++ " - "
          ++ text) ;;
       ret [])%eff
    (fun e =>
       log ERROR (adapter_logger operator) ("Search error: " ++ str_exn e) ;;
       ret [])%eff.

Definition booking_call (operator : FerryOperator) (booking_data : value)
  : HttpRequest := {|
  http_method := "POST";
  url := base_url ++ "/bookings";
  headers :=
    [("Authorization",
       Some ("Bearer " ++ Py.str_opt (api_key_encrypted operator)));
     ("Content-Type", Some "application/json")];
  json_payload := Some booking_data;
  timeout_total := 60
|}.

Definition create_booking (operator : FerryOperator) (booking_data : value)
  : M unit value :=
  try_except
    (response <- send (booking_call operator booking_data) ;;
     if (status response =? 200) || (status response =? 201) then
       of_res (json_body response)
     else
       error_text <- of_res (text_body response) ;;
       log ERROR (adapter_logger operator)
         ("Booking creation failed: " ++ Py.str_int (status response)
          ++ " - " ++ error_text) ;;
       ret (error_dict ("Booking failed: " ++ error_text)))%eff
    (fun e =>
       log ERROR (adapter_logger operator)
         ("Booking creation error: " ++ str_exn e) ;;
       ret (error_dict (str_exn e)))%eff.

Definition health_call (operator : FerryOperator) : HttpRequest := {|
  http_method := "GET";
  url := base_url ++ "/health";
  headers :=
    [("Authorization",
       Some ("Bearer " ++ Py.str_opt (api_key_encrypted operator)))];
  json_payload := None;
  timeout_total := 10
|}.

Definition health_check (operator : FerryOperator) : M unit bool :=
  try_except
    (response <- send (health_call operator) ;;
     ret (status response =? 200))%eff
    (fun e =>
       log ERROR (adapter_logger operator)
         ("Health check failed: " ++ str_exn e) ;;
       ret false)%eff.

Definition new (operator : FerryOperator) : Adapter.t :=
  let super := BaseFerryOperatorAdapter.new operator in {|
  Adapter.class := LykoAggregatorAdapterClass;
  Adapter.operator := operator;
  Adapter.base_url := Some base_url;
  Adapter.api_key := api_key_encrypted operator;
  Adapter.search_routes := search_routes operator;
  Adapter.create_booking := create_booking operator;
  Adapter.get_booking_status := Adapter.get_booking_status super;
  Adapter.cancel_booking := Adapter.cancel_booking super;
  Adapter.health_check := health_check operator
|}.

End LykoAggregatorAdapter.

Module CTNDirectAdapter.

(** [operator.api_endpoint or "https://api.ctn.com.tn/v1"] *)
Definition base_url (operator : FerryOperator) : string :=
  match api_endpoint operator with
  | Some u => if String.eqb u "" then "https://api.ctn.com.tn/v1" else u
  | None => "https://api.ctn.com.tn/v1"
  end.

Definition build_result_with (Decimal_of_str : value -> res Decimal)
    (sailing : value) : res SearchResponse :=
  (route_id <- Py.get sailing "route_id" VNone ;;
   departure_time <- Py.get sailing "departure" VNone ;;
   arrival_time <- Py.get sailing "arrival" VNone ;;
   duration_minutes <- Py.get sailing "duration" VNone ;;
   available_seats <- Py.get sailing "seats_available" VNone ;;
   available_vehicles <- Py.get sailing "vehicles_available" VNone ;;
   fare <- Py.get sailing "fare" (VInt 0) ;;
   base_price <- Decimal_of_str fare ;;
   currency <- Py.get sailing "currency" (VStr "TND") ;;
   amenities <- Py.get sailing "services" (VList []) ;;
   vessel_name <- Py.get sailing "vessel" VNone ;;
   Ok {| operator_code := VStr "CTN";
         route_id := route_id;
         departure_time := departure_time;
         arrival_time := arrival_time;
         duration_minutes := duration_minutes;
         available_seats := available_seats;
         available_vehicles := available_vehicles;
         base_price := base_price;
         currency := currency;
         booking_reference := VNone;
         amenities := amenities;
         vessel_name := vessel_name |})%res.

Definition build_result : value -> res SearchResponse :=
  build_result_with Py.Decimal_of_str.

Definition _parse_ctn_response_with {St}
    (Decimal_of_str : value -> res Decimal) (operator : FerryOperator)
    (data : value) : M St (list SearchResponse) :=
  (found <- of_res (Py.get data "sailings" (VList [])) ;;
   items <- of_res (Py.iter found) ;;
   append_parsed (adapter_logger operator)
     "Failed to parse CTN result: " (build_result_with Decimal_of_str)
     items [])%eff.

Definition _parse_ctn_response {St}
  : FerryOperator -> value -> M St (list SearchResponse) :=
  _parse_ctn_response_with Py.Decimal_of_str.

Definition search_payload (request : SearchRequest) : value :=
  VDict [
    ("from", VStr (departure_port request));
    ("to", VStr (arrival_port request));
    ("date", VStr (isoformat (departure_date request)));
    ("passengers", VInt (passengers request));
    ("vehicles", VInt (vehicles request))
  ].

Definition search_call (operator : FerryOperator) (request : SearchRequest)
  : HttpRequest := {|
  http_method := "POST";
  url := base_url operator ++ "/search";
  headers :=
    [("X-API-Key", api_key_encrypted operator);
     ("Content-Type", Some "application/json")];
  json_payload := Some (search_payload request);
  timeout_total := 30
|}.

Definition search_routes (operator : FerryOperator)
    (request : SearchRequest) : M unit (list SearchResponse) :=
  try_except
    (response <- send (search_call operator request) ;;
     if status response =? 200 then
       data <- of_res (json_body response) ;;
       _parse_ctn_response operator data
     else
       log ERROR (adapter_logger operator)
         ("CTN search failed: " ++ Py.str_int (status response)) ;;
       ret [])%eff
    (fun e =>
       log ERROR (adapter_logger operator)
         ("CTN search error: " ++ str_exn e) ;;
       ret [])%eff.

Definition health_call (operator : FerryOperator) : HttpRequest := {|
  http_method := "GET";
  url := base_url operator ++ "/status";
  headers := [("X-API-Key", api_key_encrypted operator)];
  json_payload := None;
  timeout_total := 10
|}.

Definition health_check (operator : FerryOperator) : M unit bool :=
  try_except
    (response <- send (health_call operator) ;;
     ret (status response =? 200))%eff
    (fun e =>
       log ERROR (adapter_logger operator)
         ("CTN health check failed: " ++ str_exn e) ;;
       ret false)%eff.

Definition new (operator : FerryOperator) : Adapter.t :=
  let super := BaseFerryOperatorAdapter.new operator in {|
  Adapter.class := CTNDirectAdapterClass;
  Adapter.operator := operator;
  Adapter.base_url := Some (base_url operator);
  Adapter.api_key := api_key_encrypted operator;
  Adapter.search_routes := search_routes operator;
  Adapter.create_booking := Adapter.create_booking super;
  Adapter.get_booking_status := Adapter.get_booking_status super;
  Adapter.cancel_booking := Adapter.cancel_booking super;
  Adapter.health_check := health_check operator
|}.

End CTNDirectAdapter.

(** ** [list.sort(key=...)]

    The interpreter's sort is stable and decides order with [<] on the keys
    alone, always asking whether the later element is smaller than an
    earlier one.  It is modelled by the stable insertion sort below: on keys
    that [<] orders without raising, every stable sort returns the same
    list; a comparison that raises ends the sort with that exception. *)

Section ListSort.
Context {A : Type} (lt : A -> A -> res bool).

Fixpoint insert (x : A) (sorted : list A) : res (list A) :=
  match sorted with
  | [] => Ok [x]
  | y :: ys =>
      (b <- lt x y ;;
       if b then Ok (x :: y :: ys)
       else (r <- insert x ys ;; Ok (y :: r)))%res
  end.

Fixpoint sort_from (sorted todo : list A) : res (list A) :=
  match todo with
  | [] => Ok sorted
  | x :: rest => (s <- insert x sorted ;; sort_from s rest)%res
  end.

Definition list_sort (l : list A) : res (list A) := sort_from [] l.
End ListSort.

(** [lambda x: (x.base_price, x.departure_time)] *)
Definition sort_key (x : SearchResponse) : Decimal * value :=
  (base_price x, departure_time x).

(** [a < b] on two such tuples: the first place where they differ under
    [==] decides, with [<]. *)
Definition tuple_lt (a b : Decimal * value) : res bool :=
  (same_price <- Decimal_eq (fst a) (fst b) ;;
   if negb same_price then Decimal_lt (fst a) (fst b)
   else if negb (Py.eq (snd a) (snd b)) then Py.lt (snd a) (snd b)
   else Ok false)%res.

Definition key_lt (x y : SearchResponse) : res bool :=
  tuple_lt (sort_key x) (sort_key y).

(** ** The integration service *)

Inductive session_state : Type := NoSession | OpenSession | ClosedSession.

Record Service : Type := {
  adapters : list (string * Adapter.t);
  session : session_state
}.

Module FerryOperatorIntegrationService.

Definition logger : string := "ferry_integration".

Definition new : Service := {| adapters := []; session := NoSession |}.

(** truth value of an optional [str] *)
Definition truthy (o : option string) : bool :=
  match o with
  | Some s => negb (String.eqb s "")
  | None => false
  end.

Definition _create_adapter (operator : FerryOperator)
  : M Service Adapter.t :=
  if String.eqb (integration_status operator) "lyko" then
    ret (LykoAggregatorAdapter.new operator)
  else if String.eqb (code operator) "CTN"
          && truthy (api_endpoint operator) then
    ret (CTNDirectAdapter.new operator)
  else
    ret (LykoAggregatorAdapter.new operator).

Definition set_adapter (operator_code : string) (adapter : Adapter.t)
  : M Service unit :=
  (self <- get_state ;;
   put_state {| adapters := Py.dict_set (adapters self) operator_code adapter;
                session := session self |})%eff.

Section Initialize.
(** [self._create_adapter], looked up on the instance at each call *)
Variable create_adapter : FerryOperator -> M Service Adapter.t.

Fixpoint initialize_loop (operators : list FerryOperator)
  : M Service unit :=
  match operators with
  | [] => ret tt
  | operator :: rest =>
      ((if negb (is_active operator) then ret tt
        else
          try_except
            (adapter <- create_adapter operator ;;
             set_adapter (code operator) adapter ;;
             log INFO logger
               ("Initialized adapter for " ++ code operator))
            (fun e =>
               log ERROR logger
                 ("Failed to initialize " ++ code operator ++ ": "
                  ++ str_exn e))) ;;
       initialize_loop rest)%eff
  end.

Definition initialize_with (operators : list FerryOperator)
  : M Service unit :=
  (self <- get_state ;;
   put_state {| adapters := adapters self; session := OpenSession |} ;;
   initialize_loop operators)%eff.
End Initialize.

Definition initialize : list FerryOperator -> M Service unit :=
  initialize_with _create_adapter.

Definition _safe_search (adapter : Adapter.t) (request : SearchRequest)
  : M Service (list SearchResponse) :=
  try_except
    (lift (Adapter.search_routes adapter request))
    (fun e =>
       log ERROR logger
         ("Search failed for " ++ code (Adapter.operator adapter) ++ ": "
          ++ str_exn e) ;;
       ret [])%eff.

(** the loop that flattens the gathered outcomes *)
Fixpoint extend_all (results : list (res (list SearchResponse)))
    (all_results : list SearchResponse) : M Service (list SearchResponse) :=
  match results with
  | [] => ret all_results
  | Ok result :: rest => extend_all rest (all_results ++ result)%list
  | Raise e :: rest =>
      (log ERROR logger ("Search task failed: " ++ str_exn e) ;;
       extend_all rest all_results)%eff
  end.

Definition search_all_operators (request : SearchRequest)
  : M Service (list SearchResponse) :=
  (self <- get_state ;;
   let tasks :=
     map (fun entry => _safe_search (snd entry) request) (adapters self) in
   match tasks with
   | [] => ret []
   | _ :: _ =>
       results <- gather tasks ;;
       all_results <- extend_all results [] ;;
       of_res (list_sort key_lt all_results)
   end)%eff.

Definition create_booking (operator_code : string) (booking_data : value)
  : M Service value :=
  (self <- get_state ;;
   match Py.dict_find (adapters self) operator_code with
   | None =>
       ret (error_dict ("Operator " ++ operator_code ++ " not available"))
   | Some adapter =>
       try_except
         (lift (Adapter.create_booking adapter booking_data))
         (fun e =>
            log ERROR logger
              ("Booking creation failed for " ++ operator_code ++ ": "
               ++ str_exn e) ;;
            ret (error_dict (str_exn e)))
   end)%eff.

Fixpoint await_health (tasks : list (string * M unit bool))
    (results : list (string * bool)) : M Service (list (string * bool)) :=
  match tasks with
  | [] => ret results
  | (operator_code, task) :: rest =>
      (results' <-
         try_except
           (healthy <- lift task ;;
            ret (Py.dict_set results operator_code healthy))
           (fun e =>
              log ERROR logger
                ("Health check failed for " ++ operator_code ++ ": "
                 ++ str_exn e) ;;
              ret (Py.dict_set results operator_code false)) ;;
       await_health rest results')%eff
  end.

Definition health_check_all : M Service (list (string * bool)) :=
  (self <- get_state ;;
   await_health
     (map (fun entry => (fst entry, Adapter.health_check (snd entry)))
          (adapters self))
     [])%eff.

Definition close : M Service unit :=
  (self <- get_state ;;
   put_state {| adapters := [];
                session := match session self with
                           | NoSession => NoSession
                           | _ => ClosedSession
                           end |} ;;
   log INFO logger "Ferry integration service closed")%eff.

End FerryOperatorIntegrationService.

(** * Vocabulary of the statements *)

Definition is_ok {A} (r : res A) : bool :=
  match r with Ok _ => true | Raise _ => false end.

(** ** Response mapping *)

(** the entries that a mapper converts, in order *)
Definition kept {A B} (build : A -> res B) (items : list A) : list B :=
  flat_map (fun item => match build item with Ok r => [r] | Raise _ => [] end)
           items.

(** one warning per entry that a mapper drops *)
Definition warnings {A B} (logger prefix : string) (build : A -> res B)
    (items : list A) : list event :=
  flat_map (fun item =>
              match build item with
              | Ok _ => []
              | Raise e => [Log WARNING logger (prefix ++ str_exn e)]
              end) items.

(** what a mapper iterates over: [data.get(key, [])], as a sequence *)
Definition entries (key : string) (data : value) : res (list value) :=
  (found <- Py.get data key (VList []) ;; Py.iter found)%res.

(** the normalized result of an entry [kv] of the aggregator whose price
    is [price]: every field of the entry under its normalized name *)
Definition Lyko_normalized (operator : FerryOperator)
    (kv : list (string * value)) (price : Decimal) : SearchResponse := {|
  operator_code := Py.dict_get kv "operator_code" (VStr (code operator));
  route_id := Py.dict_get kv "route_id" VNone;
  departure_time := Py.dict_get kv "departure_time" VNone;
  arrival_time := Py.dict_get kv "arrival_time" VNone;
  duration_minutes := Py.dict_get kv "duration_minutes" (VInt 0);
  available_seats := Py.dict_get kv "available_seats" (VInt 0);
  available_vehicles := Py.dict_get kv "available_vehicles" (VInt 0);
  base_price := price;
  currency := Py.dict_get kv "currency" (VStr "EUR");
  booking_reference := Py.dict_get kv "booking_reference" VNone;
  amenities := Py.dict_get kv "amenities" (VList []);
  vessel_name := Py.dict_get kv "vessel_name" (VStr "")
|}.

(** the normalized result of a sailing [kv] of CTN whose fare is [price] *)
Definition CTN_normalized (kv : list (string * value)) (price : Decimal)
  : SearchResponse := {|
  operator_code := VStr "CTN";
  route_id := Py.dict_get kv "route_id" VNone;
  departure_time := Py.dict_get kv "departure" VNone;
  arrival_time := Py.dict_get kv "arrival" VNone;
  duration_minutes := Py.dict_get kv "duration" VNone;
  available_seats := Py.dict_get kv "seats_available" VNone;
  available_vehicles := Py.dict_get kv "vehicles_available" VNone;
  base_price := price;
  currency := Py.dict_get kv "currency" (VStr "TND");
  booking_reference := VNone;
  amenities := Py.dict_get kv "services" (VList []);
  vessel_name := Py.dict_get kv "vessel" VNone
|}.

(** An entry is malformed when it is not an object, or when the decimal
    constructor refuses its price (the price 0 when the entry has none). *)
Definition malformed (Decimal_of_str : value -> res Decimal)
    (price_key : string) (item : value) : bool :=
  match item with
  | VDict kv =>
      negb (is_ok (Decimal_of_str (Py.dict_get kv price_key (VInt 0))))
  | _ => true
  end.

(** what the mapping is to make of one entry: the normalized result of a
    valid entry, the exception met on a malformed one *)
Definition normalize (Decimal_of_str : value -> res Decimal)
    (price_key : string)
    (normalized : list (string * value) -> Decimal -> SearchResponse)
    (item : value) : res SearchResponse :=
  match item with
  | VDict kv =>
      match Decimal_of_str (Py.dict_get kv price_key (VInt 0)) with
      | Ok price => Ok (normalized kv price)
      | Raise e => Raise e
      end
  | _ => Raise (Py.AttributeError item "get")
  end.

(** ** Order on sort keys *)

(** laws of a three-way comparison on the elements that satisfy [P] *)
Record cmp_laws {A} (P : A -> Prop) (cmp : A -> A -> comparison) : Prop := {
  cmp_antisym : forall a b, P a -> P b -> cmp b a = CompOpp (cmp a b);
  cmp_lt_trans :
    forall a b c, P a -> P b -> P c ->
                  cmp a b = Lt -> cmp b c = Lt -> cmp a c = Lt;
  cmp_eq_compat :
    forall a b c, P a -> P b -> P c -> cmp a b = Eq -> cmp a c = cmp b c
}.

Definition lex2 (p q : Z * Z) : comparison :=
  match fst p ?= fst q with
  | Eq => snd p ?= snd q
  | c => c
  end.

Definition exponent (d : Decimal) : Z :=
  match d with DFin _ _ e => e | _ => 0 end.

(** a number as a pair (infinite or not, coefficient at exponent [m]) *)
Definition dkey (m : Z) (d : Decimal) : Z * Z :=
  match d with
  | DFin n c e => (0, signed n c * 10 ^ (e - m))
  | DInf true => (-1, 0)
  | DInf false => (1, 0)
  | DNaN _ _ _ => (0, 0)
  end.

Definition not_nan (d : Decimal) : Prop := is_nan d = false.

Definition le_of {A} (ltb : A -> A -> bool) (x y : A) : Prop :=
  ltb y x = false.

Definition eqv_of {A} (ltb : A -> A -> bool) (x y : A) : bool :=
  negb (ltb x y) && negb (ltb y x).

Definition departure_str (x : SearchResponse) : string :=
  match departure_time x with VStr s => s | _ => "" end.

(** a result whose sort key Python can order against any other such key:
    the price is a number and the departure time is a string *)
Definition sortable (x : SearchResponse) : Prop :=
  not_nan (base_price x) /\ exists s, departure_time x = VStr s.

Definition key_cmp (x y : SearchResponse) : comparison :=
  match Decimal_cmp (base_price x) (base_price y) with
  | Eq => String.compare (departure_str x) (departure_str y)
  | c => c
  end.

Definition key_ltb (x y : SearchResponse) : bool :=
  match key_cmp x y with Lt => true | _ => false end.

(** [x] may stand before [y]: lower price, or equal price and a departure
    time that is not later *)
Definition ordered (x y : SearchResponse) : Prop :=
  Decimal_cmp (base_price x) (base_price y) = Lt
  \/ (Decimal_cmp (base_price x) (base_price y) = Eq
      /\ String.leb (departure_str x) (departure_str y) = true).

(** [x] and [y] tie on both sort fields *)
Definition tie (x y : SearchResponse) : bool :=
  match Decimal_cmp (base_price x) (base_price y) with
  | Eq => String.eqb (departure_str x) (departure_str y)
  | _ => false
  end.

(** ** Runs of the service *)

(** one adapter's search, run on the network [net] *)
Definition searched (adapter : Adapter.t) (request : SearchRequest)
    (net : Session) : res (list SearchResponse) * unit * list event :=
  Adapter.search_routes adapter request net tt.

(** the exception, if any, that an adapter's search ends with *)
Definition search_raises (adapter : Adapter.t) (request : SearchRequest)
    (net : Session) (e : exn) : Prop :=
  result_of (searched adapter request net) = Raise e.

(** what one adapter contributes to the merged list *)
Definition safe_results (adapter : Adapter.t) (request : SearchRequest)
    (net : Session) : list SearchResponse :=
  match result_of (searched adapter request net) with
  | Ok l => l
  | Raise _ => []
  end.

Definition search_failed_record (adapter : Adapter.t) (e : exn) : event :=
  Log ERROR FerryOperatorIntegrationService.logger
      ("Search failed for " ++ code (Adapter.operator adapter) ++ ": "
       ++ str_exn e).

Definition safe_events (adapter : Adapter.t) (request : SearchRequest)
    (net : Session) : list event :=
  (events_of (searched adapter request net)
   ++ match result_of (searched adapter request net) with
      | Ok _ => []
      | Raise e => [search_failed_record adapter e]
      end)%list.

(** the per-adapter lists, concatenated in the order of the adapter map *)
Definition merged (svc : Service) (request : SearchRequest) (net : Session)
  : list SearchResponse :=
  List.concat (map (fun entry => safe_results (snd entry) request net)
              (adapters svc)).

(** the HTTP calls among some events, in order *)
Definition calls (evs : list event) : list HttpRequest :=
  flat_map (fun ev => match ev with Call rq => [rq] | Log _ _ _ => [] end) evs.

(** the error record of an adapter whose search was abandoned *)
Definition search_error (operator : FerryOperator) (prefix : string) (e : exn)
  : event :=
  Log ERROR (adapter_logger operator) (prefix ++ str_exn e).

(** the lists of the adapters whose search returned *)
Definition successes (svc : Service) (request : SearchRequest) (net : Session)
  : list (list SearchResponse) :=
  flat_map (fun entry =>
              match result_of (searched (snd entry) request net) with
              | Ok l => [l]
              | Raise _ => []
              end) (adapters svc).

(** the search call that an adapter of either concrete class sends *)
Definition search_call_of (adapter : Adapter.t) (request : SearchRequest)
  : HttpRequest :=
  match Adapter.class adapter with
  | CTNDirectAdapterClass =>
      CTNDirectAdapter.search_call (Adapter.operator adapter) request
  | _ => LykoAggregatorAdapter.search_call (Adapter.operator adapter) request
  end.

(** an adapter of one of the two classes that the service constructs *)
Definition concrete (adapter : Adapter.t) : Prop :=
  adapter = LykoAggregatorAdapter.new (Adapter.operator adapter)
  \/ adapter = CTNDirectAdapter.new (Adapter.operator adapter).

(** [a] stands somewhere before [b] in [l] *)
Definition before {A} (a b : A) (l : list A) : Prop :=
  exists l1 l2 l3, l = (l1 ++ a :: l2 ++ b :: l3)%list.

(** the reply to a search call is unusable as a whole: the transport
    failed, the status is not 200, the body is not JSON, or the body has no
    sequence under [key] *)
Definition whole_response_failure (key : string) (reply : res Response)
  : Prop :=
  match reply with
  | Raise _ => True
  | Ok response =>
      status response <> 200
      \/ (exists e, json_body response = Raise e)
      \/ (exists data e,
            json_body response = Ok data /\ entries key data = Raise e)
  end.

(** ** Registration *)

(** the adapter map after the constructor [construct] was tried on each of
    [operators] in turn *)
Definition registered (construct : FerryOperator -> res Adapter.t)
    (operators : list FerryOperator) (start : list (string * Adapter.t))
  : list (string * Adapter.t) :=
  fold_left (fun acc operator =>
               match construct operator with
               | Ok adapter => Py.dict_set acc (code operator) adapter
               | Raise _ => acc
               end) operators start.

(** the log record that [initialize] writes for one active operator *)
Definition initialize_record (construct : FerryOperator -> res Adapter.t)
    (operator : FerryOperator) : event :=
  match construct operator with
  | Ok _ =>
      Log INFO FerryOperatorIntegrationService.logger
          ("Initialized adapter for " ++ code operator)
  | Raise e =>
      Log ERROR FerryOperatorIntegrationService.logger
          ("Failed to initialize " ++ code operator ++ ": " ++ str_exn e)
  end.

(** the class that [_create_adapter] picks *)
Definition selected_class (operator : FerryOperator) : AdapterClass :=
  if String.eqb (integration_status operator) "lyko"
  then LykoAggregatorAdapterClass
  else if String.eqb (code operator) "CTN"
          && FerryOperatorIntegrationService.truthy (api_endpoint operator)
       then CTNDirectAdapterClass
       else LykoAggregatorAdapterClass.

Definition construct_selected (operator : FerryOperator) : res Adapter.t :=
  Ok (match selected_class operator with
      | CTNDirectAdapterClass => CTNDirectAdapter.new operator
      | _ => LykoAggregatorAdapter.new operator
      end).

(** ** The claims that the code does not meet, in their own words *)

(** Final tie-break of the merged order as claimed: of two results that tie
    on price and departure and stand at the same place of their adapters'
    lists, the one with the smaller operator code comes first. *)
Definition tie_broken_by_operator_code
    (per_adapter : list (list SearchResponse)) (out : list SearchResponse)
  : Prop :=
  forall la lb i a b s t,
    In la per_adapter -> In lb per_adapter ->
    nth_error la i = Some a -> nth_error lb i = Some b ->
    tie a b = true ->
    operator_code a = VStr s -> operator_code b = VStr t ->
    String.ltb s t = true ->
    before a b out.

Inductive outcome : Type := Succeeded | Failed | SkippedUnhealthy | TimedOut.

(** Outcome map as claimed: something read off the returned response that
    marks as failed exactly the operators whose search raised. *)
Definition marks_exactly_the_failed
    (read : list SearchResponse -> string -> option outcome) : Prop :=
  forall svc request net operator_code adapter out,
    Py.dict_find (adapters svc) operator_code = Some adapter ->
    result_of
      (FerryOperatorIntegrationService.search_all_operators request net svc)
    = Ok out ->
    (read out operator_code = Some Failed
     <-> exists e, search_raises adapter request net e).

(** Health gate as claimed: an adapter that the health check reports as
    unhealthy is sent no search call. *)
Definition skips_unhealthy (svc : Service) (request : SearchRequest)
    (net : Session) : Prop :=
  forall health operator_code adapter,
    result_of (FerryOperatorIntegrationService.health_check_all net svc)
    = Ok health ->
    In (operator_code, adapter) (adapters svc) ->
    Py.dict_find health operator_code = Some false ->
    ~ In (search_call_of adapter request)
         (calls (events_of
                   (FerryOperatorIntegrationService.search_all_operators
                      request net svc))).

(** the integration settings of a configuration: all of it but the code of
    the operator and the activity flag *)
Definition integration_settings (operator : FerryOperator)
  : string * option string * option string * Z :=
  (integration_status operator, api_endpoint operator,
   api_key_encrypted operator, api_timeout_seconds operator).

(** Selection as claimed: the class of an adapter is looked up by the
    integration pattern of its configuration, read as widely as the
    configuration allows. *)
Definition selected_by_integration_pattern : Prop :=
  exists lookup : string * option string * option string * Z -> AdapterClass,
    forall operator net svc adapter,
      result_of
        (FerryOperatorIntegrationService._create_adapter operator net svc)
      = Ok adapter ->
      Adapter.class adapter = lookup (integration_settings operator).

(** Timeout as claimed: a search call is bounded by the operator's
    configured timeout. *)
Definition bounded_by_configured_timeout (adapter : Adapter.t)
    (request : SearchRequest) : Prop :=
  timeout_total (search_call_of adapter request)
  = api_timeout_seconds (Adapter.operator adapter).

(** ** Concrete operators, replies and services *)

Module Scenario.
Import FerryOperatorIntegrationService.

Definition operator (c pattern : string) (endpoint : option string)
    (active : bool) : FerryOperator := {|
  code := c;
  is_active := active;
  integration_status := pattern;
  api_endpoint := endpoint;
  api_key_encrypted := Some "secret";
  api_timeout_seconds := 5
|}.

Definition zzz : FerryOperator := operator "ZZZ" "lyko" None true.
Definition aaa : FerryOperator := operator "AAA" "pending" None true.
Definition off : FerryOperator := operator "OFF" "lyko" None false.
Definition ctn : FerryOperator :=
  operator "CTN" "active" (Some "https://ctn.example/v1") true.

(** another operator with a direct API: the configuration of CTN under
    another code *)
Definition gnv : FerryOperator :=
  operator "GNV" "active" (Some "https://ctn.example/v1") true.

Definition request : SearchRequest := {|
  departure_port := "TUN";
  arrival_port := "MRS";
  departure_date := {| year := 2024; month := 7; day := 15 |};
  return_date := None;
  passengers := 2;
  vehicles := 0;
  passenger_types := [("adult", 2)];
  vehicle_types := []
|}.

Definition reply (code : Z) (body : value) : res Response :=
  Ok {| status := code; json_body := Ok body; text_body := Ok "" |}.

Definition entry (price : value) (departure : string) : value :=
  VDict [("route_id", VStr "R1"); ("price", price);
         ("departure_time", VStr departure)].

Definition sailing (fare : value) (departure : string) : value :=
  VDict [("route_id", VStr "R2"); ("fare", fare);
         ("departure", VStr departure)].

(** every operator answers with one sailing at 80, leaving at 08:00 *)
Definition net_tie : Session :=
  fun rq =>
    reply 200 (VDict [("results", VList [entry (VInt 80) "08:00"]);
                      ("sailings", VList [sailing (VInt 80) "08:00"])]).

(** searches succeed, health probes are answered with 503 *)
Definition net_unhealthy : Session :=
  fun rq =>
    if String.eqb (http_method rq) "GET"
    then reply 503 VNone
    else net_tie rq.

(** every search is answered with an empty list *)
Definition net_empty : Session :=
  fun rq => reply 200 (VDict [("results", VList []); ("sailings", VList [])]).

(** one entry at 80 and one entry without a price *)
Definition net_default : Session :=
  fun rq =>
    reply 200
      (VDict [("results",
                VList [entry (VInt 80) "08:00";
                       VDict [("departure_time", VStr "09:00")]])]).

(** two entries at the same price, the second without a departure time *)
Definition net_missing_departure : Session :=
  fun rq =>
    reply 200
      (VDict [("results",
                VList [entry (VInt 80) "08:00";
                       VDict [("price", VInt 80)]])]).

(** no connection can be made *)
Definition net_down : Session :=
  fun rq => Raise (Exn "ClientConnectorError" "Cannot connect to host").

(** an entry of the aggregator that carries every field *)
Definition full_entry (price : value) (departure : string) : value :=
  VDict [("operator_code", VStr "GNV"); ("route_id", VStr "R1");
         ("departure_time", VStr departure); ("arrival_time", VStr "23:10");
         ("duration_minutes", VInt 600); ("available_seats", VInt 120);
         ("available_vehicles", VInt 14); ("price", price);
         ("currency", VStr "USD"); ("booking_reference", VStr "LK-1");
         ("amenities", VList [VStr "wifi"]);
         ("vessel_name", VStr "Splendid")].

(** its normalized result, the price read as [price] *)
Definition full_entry_result (price : Decimal) (departure : string)
  : SearchResponse := {|
  operator_code := VStr "GNV";
  route_id := VStr "R1";
  departure_time := VStr departure;
  arrival_time := VStr "23:10";
  duration_minutes := VInt 600;
  available_seats := VInt 120;
  available_vehicles := VInt 14;
  base_price := price;
  currency := VStr "USD";
  booking_reference := VStr "LK-1";
  amenities := VList [VStr "wifi"];
  vessel_name := VStr "Splendid"
|}.

(** a sailing of CTN that carries every field *)
Definition full_sailing (fare : value) (departure : string) : value :=
  VDict [("route_id", VStr "R2"); ("departure", VStr departure);
         ("arrival", VStr "21:40"); ("duration", VInt 540);
         ("seats_available", VInt 80); ("vehicles_available", VInt 9);
         ("fare", fare); ("currency", VStr "EUR");
         ("services", VList [VStr "cabin"]); ("vessel", VStr "Tanit")].

(** its normalized result, the fare read as [price] *)
Definition full_sailing_result (price : Decimal) (departure : string)
  : SearchResponse := {|
  operator_code := VStr "CTN";
  route_id := VStr "R2";
  departure_time := VStr departure;
  arrival_time := VStr "21:40";
  duration_minutes := VInt 540;
  available_seats := VInt 80;
  available_vehicles := VInt 9;
  base_price := price;
  currency := VStr "EUR";
  booking_reference := VNone;
  amenities := VList [VStr "cabin"];
  vessel_name := VStr "Tanit"
|}.

(** three valid entries and one whose price does not parse, for each
    operator *)
Definition three_and_one : value :=
  VDict [("results",
           VList [full_entry (VFloat (DFin false 895 (-1))) "08:00";
                  full_entry (VStr "n/a") "09:00";
                  full_entry (VStr "95.00") "20:00";
                  full_entry (VInt 120) "22:30"]);
         ("sailings",
           VList [full_sailing (VInt 70) "06:00";
                  full_sailing (VStr "72.5") "07:00";
                  full_sailing VNone "08:00";
                  full_sailing (VFloat (DFin false 955 (-1))) "09:00"])].

(** a constructor that rejects the configuration of ZZZ *)
Definition fragile (operator : FerryOperator) : res Adapter.t :=
  if String.eqb (code operator) "ZZZ"
  then Raise (Exn "ValueError" "malformed endpoint")
  else construct_selected operator.

Definition service (operators : list FerryOperator) : Service :=
  state_of (initialize operators net_down new).

Definition zzz_then_aaa : Service := service [zzz; aaa].
Definition aaa_and_ctn : Service := {|
  adapters := [("AAA", LykoAggregatorAdapter.new aaa);
               ("CTN", CTNDirectAdapter.new ctn)];
  session := OpenSession
|}.

Definition only_aaa : Service := {|
  adapters := [("AAA", LykoAggregatorAdapter.new aaa)];
  session := OpenSession
|}.

(** a service that holds an adapter of the base class *)
Definition with_base : Service := {|
  adapters := [("AAA", LykoAggregatorAdapter.new aaa);
               ("ZZZ", BaseFerryOperatorAdapter.new zzz)];
  session := OpenSession
|}.

Definition with_lyko : Service := {|
  adapters := [("AAA", LykoAggregatorAdapter.new aaa);
               ("ZZZ", LykoAggregatorAdapter.new zzz)];
  session := OpenSession
|}.

End Scenario.

(** * Vocabulary of the further properties *)

(** what [health_check_all] reports for one adapter *)
Definition healthy (adapter : Adapter.t) (net : Session) : bool :=
  match result_of (Adapter.health_check adapter net tt) with
  | Ok b => b
  | Raise _ => false
  end.

(** the record that [health_check_all] logs for a probe that raised *)
Definition health_events (operator_code : string) (adapter : Adapter.t)
    (net : Session) : list event :=
  (events_of (Adapter.health_check adapter net tt)
   ++ match result_of (Adapter.health_check adapter net tt) with
      | Ok _ => []
      | Raise e =>
          [Log ERROR FerryOperatorIntegrationService.logger
               ("Health check failed for " ++ operator_code ++ ": "
                ++ str_exn e)]
      end)%list.

(** the last active operator of a list that has the code [c] *)
Definition last_active (operators : list FerryOperator) (c : string)
  : option FerryOperator :=
  find (fun operator => is_active operator && String.eqb (code operator) c)
       (rev operators).

(** every adapter is stored under the code of its own operator *)
Definition keyed_by_code (entries : list (string * Adapter.t)) : Prop :=
  Forall (fun entry => fst entry = code (Adapter.operator (snd entry)))
         entries.

(** the results of a search, none when it raised *)
Definition results_of {St} (x : res (list SearchResponse) * St * list event)
  : list SearchResponse :=
  match result_of x with
  | Ok l => l
  | Raise _ => []
  end.

Module Cases.
Import FerryOperatorIntegrationService.

(** one operator sends the price "NaN" beside a regular entry *)
Definition net_nan : Session :=
fun rq =>
  Scenario.reply 200
    (VDict [("results",
              VList [Scenario.entry (VInt 80) "08:00";
                     Scenario.entry (VStr "NaN") "09:00"])]).

(** searches find one sailing, probes are answered with 200 for the
  aggregator and refused for CTN *)
Definition net_mixed : Session :=
fun rq =>
  if String.eqb (http_method rq) "GET"
  then if String.eqb (url rq) "https://api.lyko.tech/v1/health"
       then Scenario.reply 200 VNone
       else Raise (Exn "ClientConnectorError" "Cannot connect to host")
  else Scenario.net_tie rq.

(** the booking endpoint answers 201 with a confirmation *)
Definition net_booked : Session :=
fun rq => Scenario.reply 201 (VDict [("booking_reference", VStr "LK-1")]).

(** a second configuration of AAA, with another key *)
Definition aaa_rekeyed : FerryOperator := {|
code := "AAA";
is_active := true;
integration_status := "lyko";
api_endpoint := None;
api_key_encrypted := Some "rotated";
api_timeout_seconds := 30
|}.

(** AAA switched off *)
Definition aaa_off : FerryOperator := {|
code := "AAA";
is_active := false;
integration_status := "lyko";
api_endpoint := None;
api_key_encrypted := Some "secret";
api_timeout_seconds := 30
|}.

End Cases.

(** what an adapter map registers: under each key, the class of the
    adapter and the configuration it was built from *)
Definition registrations (entries : list (string * Adapter.t))
  : list (string * (AdapterClass * FerryOperator)) :=
  map (fun entry =>
         (fst entry,
          (Adapter.class (snd entry), Adapter.operator (snd entry))))
      entries.

(** * Proofs *)

(** ** The model on concrete inputs *)

Example Decimal_of_string_examples :
  map DecimalSyntax.Decimal_of_string
      ["89.50"; " 1_000.5e-3 "; "-5"; "1."; ".5"; "Infinity"; "-sNaN12";
       "n/a"; "None"; "."; "1e"; ""]
  = [Some (DFin false 8950 (-2)); Some (DFin false 10005 (-4));
     Some (DFin true 5 0); Some (DFin false 1 0); Some (DFin false 5 (-1));
     Some (DInf false); Some (DNaN true true 12);
     None; None; None; None; None].
Proof. reflexivity. Qed.

Example Decimal_cmp_examples :
  Decimal_cmp (DFin false 80 0) (DFin false 800 (-1)) = Eq
  /\ Decimal_cmp (DFin false 895 (-1)) (DFin false 95 0) = Lt
  /\ Decimal_cmp (DFin true 5 0) (DFin false 0 0) = Lt
  /\ Decimal_cmp (DInf true) (DFin true 5 3) = Lt.
Proof. repeat split. Qed.

Example isoformat_example :
  isoformat {| year := 2024; month := 7; day := 5 |} = "2024-07-05".
Proof. reflexivity. Qed.

Example iter_examples :
  Py.iter (VStr "ab") = Ok [VStr "a"; VStr "b"]
  /\ Py.iter (VDict [("k", VInt 1)]) = Ok [VStr "k"]
  /\ Py.iter VNone
     = Raise (Exn "TypeError" "'NoneType' object is not iterable").
Proof. repeat split. Qed.

(** a missing departure time cannot be ordered against a present one *)
Example tuple_lt_examples :
  tuple_lt (DFin false 80 0, VStr "07:00") (DFin false 80 0, VStr "08:00")
  = Ok true
  /\ tuple_lt (DFin false 80 0, VNone) (DFin false 80 0, VStr "08:00")
     = Raise (Exn "TypeError"
                "'<' not supported between instances of 'NoneType' and 'str'")
  /\ tuple_lt (DNaN false false 0, VStr "07:00") (DFin false 80 0, VStr "08:00")
     = Raise InvalidOperation.
Proof. repeat split. Qed.

Example search_all_operators_example :
  result_of
    (FerryOperatorIntegrationService.search_all_operators Scenario.request
       Scenario.net_default Scenario.only_aaa)
  = Ok [ {| operator_code := VStr "AAA"; route_id := VNone;
            departure_time := VStr "09:00"; arrival_time := VNone;
            duration_minutes := VInt 0; available_seats := VInt 0;
            available_vehicles := VInt 0; base_price := DFin false 0 0;
            currency := VStr "EUR"; booking_reference := VNone;
            amenities := VList []; vessel_name := VStr "" |};
         {| operator_code := VStr "AAA"; route_id := VStr "R1";
            departure_time := VStr "08:00"; arrival_time := VNone;
            duration_minutes := VInt 0; available_seats := VInt 0;
            available_vehicles := VInt 0; base_price := DFin false 80 0;
            currency := VStr "EUR"; booking_reference := VNone;
            amenities := VList []; vessel_name := VStr "" |} ].
Proof. vm_compute. reflexivity. Qed.

(** two results at the same price, one of them without a departure time:
    the sort compares [None] with a string, and the exception leaves
    [search_all_operators] *)
Example search_all_operators_raises_on_missing_departure :
  result_of
    (FerryOperatorIntegrationService.search_all_operators Scenario.request
       Scenario.net_missing_departure Scenario.only_aaa)
  = Raise (Exn "TypeError"
             "'<' not supported between instances of 'NoneType' and 'str'").
Proof. vm_compute. reflexivity. Qed.
(** ** The response-mapping loop *)

Lemma append_parsed_run {St} logger prefix build items :
  forall results net (st : St),
    append_parsed logger prefix build items results net st
    = (Ok (results ++ kept build items)%list, st,
       warnings logger prefix build items).
Proof.
  induction items as [|item rest IH]; intros results net st; simpl.
  - unfold ret. now rewrite app_nil_r.
  - unfold bind at 1. unfold try_except, bind, of_res, ret, log.
    destruct (build item) as [r|e]; simpl; rewrite IH; simpl.
    + now rewrite <- app_assoc.
    + reflexivity.
Qed.

Lemma kept_length {A B} (build : A -> res B) items :
  List.length (kept build items)
  = List.length (filter (fun i => is_ok (build i)) items).
Proof.
  induction items as [|i rest IH]; simpl; [reflexivity|].
  rewrite length_app, IH. destruct (build i); reflexivity.
Qed.

(** ** Comparisons *)

Lemma cmp_laws_not_lt_trans {A} (P : A -> Prop) cmp :
  cmp_laws P cmp ->
  forall x y z, P x -> P y -> P z ->
    cmp y x <> Lt -> cmp z y <> Lt -> cmp z x <> Lt.
Proof.
  intros L x y z Px Py Pz Hyx Hzy Hzx.
  destruct (cmp y x) eqn:E; [| congruence |].
  - apply Hzy.
    rewrite (cmp_antisym P cmp L y z Py Pz).
    rewrite (cmp_eq_compat P cmp L y x z Py Px Pz E).
    rewrite (cmp_antisym P cmp L z x Pz Px), Hzx. reflexivity.
  - assert (Hxy : cmp x y = Lt).
    { rewrite (cmp_antisym P cmp L y x Py Px), E. reflexivity. }
    apply Hzy. apply (cmp_lt_trans P cmp L z x y); assumption.
Qed.

Lemma lex2_lt p q :
  lex2 p q = Lt <-> fst p < fst q \/ (fst p = fst q /\ snd p < snd q).
Proof.
  unfold lex2. destruct (Z.compare_spec (fst p) (fst q)) as [E|E|E].
  - rewrite Z.compare_lt_iff. lia.
  - split; [lia | reflexivity].
  - split; [discriminate | lia].
Qed.

Lemma lex2_eq p q : lex2 p q = Eq <-> p = q.
Proof.
  unfold lex2. destruct p as [p1 p2], q as [q1 q2]; simpl.
  destruct (Z.compare_spec p1 q1) as [E|E|E].
  - rewrite Z.compare_eq_iff. split; [intros; subst; reflexivity|].
    intros H; inversion H; reflexivity.
  - split; [discriminate|]. intros H; inversion H; lia.
  - split; [discriminate|]. intros H; inversion H; lia.
Qed.

Lemma lex2_laws : cmp_laws (fun _ => True) lex2.
Proof.
  split.
  - intros [a1 a2] [b1 b2] _ _; unfold lex2; simpl.
    rewrite (Z.compare_antisym a1 b1), (Z.compare_antisym a2 b2).
    destruct (a1 ?= b1); reflexivity.
  - intros a b c _ _ _. rewrite !lex2_lt. lia.
  - intros a b c _ _ _ H. apply lex2_eq in H. now subst.
Qed.

Lemma scaled_compare za ea zb eb m :
  m <= ea -> m <= eb ->
  (za * 10 ^ (ea - Z.min ea eb) ?= zb * 10 ^ (eb - Z.min ea eb))
  = (za * 10 ^ (ea - m) ?= zb * 10 ^ (eb - m)).
Proof.
  intros Ha Hb. set (k := Z.min ea eb).
  assert (Hk : m <= k) by (unfold k; lia).
  replace (ea - m) with ((ea - k) + (k - m)) by lia.
  replace (eb - m) with ((eb - k) + (k - m)) by lia.
  rewrite !Z.pow_add_r by (unfold k; lia).
  rewrite !Z.mul_assoc.
  assert (Hp : 0 < 10 ^ (k - m)) by (apply Z.pow_pos_nonneg; lia).
  generalize dependent (10 ^ (k - m)). intros p Hp.
  generalize (za * 10 ^ (ea - k)) (zb * 10 ^ (eb - k)). intros x y.
  destruct (Z.compare_spec x y); symmetry;
    [apply Z.compare_eq_iff | apply Z.compare_lt_iff | apply Z.compare_gt_iff];
    nia.
Qed.

Lemma Decimal_cmp_dkey m a b :
  is_nan a = false -> is_nan b = false ->
  m <= exponent a -> m <= exponent b ->
  Decimal_cmp a b = lex2 (dkey m a) (dkey m b).
Proof.
  destruct a as [na ca ea|[|]|], b as [nb cb eb|[|]|]; simpl;
    try discriminate; intros _ _ Ha Hb; try reflexivity.
  unfold lex2; simpl. now apply scaled_compare.
Qed.

Lemma Decimal_cmp_laws : cmp_laws not_nan Decimal_cmp.
Proof.
  split.
  - intros a b Ha Hb.
    set (m := Z.min (exponent a) (exponent b)).
    rewrite (Decimal_cmp_dkey m a b), (Decimal_cmp_dkey m b a)
      by (auto; unfold m; lia).
    now apply lex2_laws.
  - intros a b c Ha Hb Hc.
    set (m := Z.min (exponent a) (Z.min (exponent b) (exponent c))).
    rewrite (Decimal_cmp_dkey m a b), (Decimal_cmp_dkey m b c),
      (Decimal_cmp_dkey m a c) by (auto; unfold m; lia).
    now apply lex2_laws.
  - intros a b c Ha Hb Hc.
    set (m := Z.min (exponent a) (Z.min (exponent b) (exponent c))).
    rewrite (Decimal_cmp_dkey m a b), (Decimal_cmp_dkey m b c),
      (Decimal_cmp_dkey m a c) by (auto; unfold m; lia).
    now apply lex2_laws.
Qed.

Lemma Ascii_compare_lt_trans a b c :
  Ascii.compare a b = Lt -> Ascii.compare b c = Lt -> Ascii.compare a c = Lt.
Proof.
  unfold Ascii.compare. rewrite !N.compare_lt_iff. apply N.lt_trans.
Qed.

Lemma String_compare_laws : cmp_laws (fun _ => True) String.compare.
Proof.
  split.
  - intros a b _ _. apply String.compare_antisym.
  - intros a. induction a as [|x a IH]; intros [|y b] [|z c] _ _ _;
      simpl; try discriminate; auto.
    destruct (Ascii.compare x y) eqn:Exy; try discriminate.
    + apply Ascii.compare_eq_iff in Exy. subst y.
      destruct (Ascii.compare x z); try discriminate; auto.
      apply IH; auto.
    + intros _. destruct (Ascii.compare y z) eqn:Eyz; try discriminate.
      * apply Ascii.compare_eq_iff in Eyz. subst z. now rewrite Exy.
      * now rewrite (Ascii_compare_lt_trans x y z).
  - intros a b c _ _ _ H. apply String.compare_eq_iff in H. now subst.
Qed.

(** the lexicographic product of two lawful comparisons *)
Lemma lex_cmp_laws {A B} (PA : A -> Prop) (PB : B -> Prop) ca cb :
  cmp_laws PA ca -> cmp_laws PB cb ->
  cmp_laws (fun p => PA (fst p) /\ PB (snd p))
           (fun p q => match ca (fst p) (fst q) with
                       | Eq => cb (snd p) (snd q)
                       | c => c
                       end).
Proof.
  intros LA LB. split.
  - intros [a1 a2] [b1 b2] [Ha1 Ha2] [Hb1 Hb2]; simpl in *.
    rewrite (cmp_antisym PA ca LA a1 b1), (cmp_antisym PB cb LB a2 b2) by auto.
    destruct (ca a1 b1); reflexivity.
  - intros [a1 a2] [b1 b2] [c1 c2] [Ha1 Ha2] [Hb1 Hb2] [Hc1 Hc2]; simpl in *.
    destruct (ca a1 b1) eqn:Eab; try discriminate.
    + rewrite (cmp_eq_compat PA ca LA a1 b1 c1) by auto.
      destruct (ca b1 c1); try discriminate; auto.
      apply (cmp_lt_trans PB cb LB); auto.
    + intros _. destruct (ca b1 c1) eqn:Ebc; try discriminate.
      * assert (E : ca a1 c1 = Lt).
        { assert (Hcb : ca c1 b1 = Eq)
            by (rewrite (cmp_antisym PA ca LA b1 c1), Ebc; auto).
          rewrite (cmp_antisym PA ca LA c1 a1) by auto.
          rewrite (cmp_eq_compat PA ca LA c1 b1 a1) by auto.
          rewrite (cmp_antisym PA ca LA a1 b1), Eab by auto. reflexivity. }
        now rewrite E.
      * intros _. now rewrite (cmp_lt_trans PA ca LA a1 b1 c1).
  - intros [a1 a2] [b1 b2] [c1 c2] [Ha1 Ha2] [Hb1 Hb2] [Hc1 Hc2]; simpl in *.
    destruct (ca a1 b1) eqn:Eab; try discriminate.
    intros E2. rewrite (cmp_eq_compat PA ca LA a1 b1 c1) by auto.
    destruct (ca b1 c1); auto. apply (cmp_eq_compat PB cb LB); auto.
Qed.

(** ** The sort *)

Section StableSort.
Context {A : Type} (lt : A -> A -> res bool) (ltb : A -> A -> bool).
Context (P : A -> Prop).

Hypothesis lt_ok : forall x y, P x -> P y -> lt x y = Ok (ltb x y).
Hypothesis ltb_asym : forall x y, P x -> P y -> ltb x y = true -> ltb y x = false.
Hypothesis le_trans :
  forall x y z, P x -> P y -> P z -> le_of ltb x y -> le_of ltb y z -> le_of ltb x z.

Lemma later_not_tied x z w :
  P x -> P z -> P w -> eqv_of ltb z x = true -> ltb x w = true ->
  eqv_of ltb z w = false.
Proof.
  intros Px Pz Pw Hzx Hxw. unfold eqv_of in *.
  apply andb_true_iff in Hzx as [_ Hxz]. apply negb_true_iff in Hxz.
  destruct (ltb z w) eqn:Hzw; [reflexivity|]. simpl.
  destruct (ltb w z) eqn:Hwz; [reflexivity|]. exfalso.
  assert (H : le_of ltb w x) by (apply (le_trans w z x); assumption).
  unfold le_of in H. congruence.
Qed.

Lemma insert_spec x sorted :
  P x -> Forall P sorted -> StronglySorted (le_of ltb) sorted ->
  exists out,
    insert lt x sorted = Ok out
    /\ Permutation (x :: sorted) out
    /\ Forall P out
    /\ StronglySorted (le_of ltb) out
    /\ forall z, P z ->
         filter (eqv_of ltb z) out = filter (eqv_of ltb z) (sorted ++ [x])%list.
Proof.
  intros Px. induction sorted as [|y ys IH]; intros HP Hs.
  - exists [x]. simpl. repeat split; auto. repeat constructor.
  - inversion HP as [|? ? Py Pys]; subst.
    inversion Hs as [|? ? Hys Hy]; subst.
    cbn [insert]. rewrite (lt_ok x y Px Py). cbn [res_bind].
    destruct (ltb x y) eqn:Hxy.
    + assert (Hlater : Forall (fun w => P w /\ ltb x w = true) (y :: ys)).
      { constructor; [auto|].
        rewrite Forall_forall in *. intros w Hw. split; [auto|].
        destruct (ltb x w) eqn:Hxw; [reflexivity|exfalso].
        assert (H : le_of ltb y x) by (apply (le_trans y w x); auto).
        unfold le_of in H. congruence. }
      exists (x :: y :: ys). repeat split; auto.
      * constructor; [assumption|].
        eapply Forall_impl; [|exact Hlater].
        intros w [Pw Hw]. now apply ltb_asym.
      * intros z Pz. rewrite filter_app.
        change (filter (eqv_of ltb z) (x :: y :: ys))
          with (if eqv_of ltb z x then x :: filter (eqv_of ltb z) (y :: ys)
                else filter (eqv_of ltb z) (y :: ys)).
        change (filter (eqv_of ltb z) [x])
          with (if eqv_of ltb z x then [x] else []).
        destruct (eqv_of ltb z x) eqn:Hzx; [|now rewrite app_nil_r].
        assert (Hnone : filter (eqv_of ltb z) (y :: ys) = []).
        { clear -Hlater Hzx Px Pz le_trans.
          induction Hlater as [|w ws [Pw Hw] _ IHw]; [reflexivity|].
          simpl. now rewrite (later_not_tied x z w), IHw. }
        now rewrite Hnone.
    + destruct (IH Pys Hys) as (r & Hr & Hperm & HPr & Hsr & Hfr).
      rewrite Hr. cbn [res_bind]. exists (y :: r). repeat split; auto.
      * rewrite perm_swap. now constructor.
      * constructor; [assumption|].
        apply (Permutation_Forall Hperm). constructor; assumption.
      * intros z Pz. simpl. rewrite (Hfr z Pz). reflexivity.
Qed.

Lemma sort_from_spec todo :
  forall sorted,
    Forall P sorted -> Forall P todo -> StronglySorted (le_of ltb) sorted ->
    exists out,
      sort_from lt sorted todo = Ok out
      /\ Permutation (sorted ++ todo) out
      /\ StronglySorted (le_of ltb) out
      /\ forall z, P z ->
           filter (eqv_of ltb z) out = filter (eqv_of ltb z) (sorted ++ todo)%list.
Proof.
  induction todo as [|x rest IH]; intros sorted HPs HPt Hs.
  - exists sorted. simpl. rewrite app_nil_r. auto.
  - inversion HPt as [|? ? Px Prest]; subst.
    destruct (insert_spec x sorted Px HPs Hs)
      as (s & Hins & Hperm & HPs' & Hss & Hfs).
    destruct (IH s HPs' Prest Hss) as (out & Hout & Hperm' & Hso & Hfo).
    exists out. cbn [sort_from]. rewrite Hins. cbn [res_bind].
    repeat split; auto.
    + rewrite <- Hperm'. rewrite <- Hperm.
      now rewrite <- Permutation_middle.
    + intros z Pz. change (x :: rest) with ([x] ++ rest)%list.
      rewrite (Hfo z Pz), !filter_app, (Hfs z Pz), filter_app.
      now rewrite <- app_assoc.
Qed.

Lemma list_sort_spec l :
  Forall P l ->
  exists out,
    list_sort lt l = Ok out
    /\ Permutation l out
    /\ StronglySorted (le_of ltb) out
    /\ forall z, P z -> filter (eqv_of ltb z) out = filter (eqv_of ltb z) l.
Proof.
  intros HP. apply (sort_from_spec l []); auto. constructor.
Qed.
End StableSort.

(** ** Sort keys *)

Lemma cmp_laws_map {A B} (f : A -> B) (P : B -> Prop) cmp :
  cmp_laws P cmp ->
  cmp_laws (fun x => P (f x)) (fun x y => cmp (f x) (f y)).
Proof.
  intros L. split; intros.
  - now apply (cmp_antisym P cmp L).
  - now apply (cmp_lt_trans P cmp L _ (f b)).
  - now apply (cmp_eq_compat P cmp L).
Qed.

Lemma cmp_laws_weaken {A} (P Q : A -> Prop) cmp :
  (forall x, Q x -> P x) -> cmp_laws P cmp -> cmp_laws Q cmp.
Proof.
  intros H L. split; intros.
  - apply (cmp_antisym P cmp L); auto.
  - apply (cmp_lt_trans P cmp L _ b); auto.
  - apply (cmp_eq_compat P cmp L); auto.
Qed.

Lemma key_cmp_laws : cmp_laws sortable key_cmp.
Proof.
  apply (cmp_laws_weaken
           (fun x => not_nan (fst (base_price x, departure_str x))
                     /\ True)).
  - intros x [H _]. split; [exact H | exact I].
  - exact (cmp_laws_map (fun x => (base_price x, departure_str x)) _ _
             (lex_cmp_laws not_nan (fun _ => True) Decimal_cmp String.compare
                Decimal_cmp_laws String_compare_laws)).
Qed.

Lemma String_compare_refl s : String.compare s s = Eq.
Proof.
  pose proof (String.compare_antisym s s) as H.
  destruct (String.compare s s); simpl in H; congruence.
Qed.

Lemma String_compare_eq s t : String.compare s t = Eq <-> s = t.
Proof.
  split; [apply String.compare_eq_iff|].
  intros ->. apply String_compare_refl.
Qed.

Lemma not_nan_not_snan d : not_nan d -> is_snan d = false.
Proof. destruct d as [| |? [|] ?]; simpl; auto; discriminate. Qed.

(** On sortable results the tuple comparison never raises and is
    [key_ltb]. *)
Lemma key_lt_sortable x y :
  sortable x -> sortable y -> key_lt x y = Ok (key_ltb x y).
Proof.
  intros [Hx [s Hs]] [Hy [t Ht]].
  unfold key_lt, tuple_lt, sort_key, key_ltb, key_cmp, departure_str,
    Decimal_eq, Decimal_lt.
  cbn [fst snd]. rewrite Hs, Ht.
  rewrite (not_nan_not_snan _ Hx), (not_nan_not_snan _ Hy), Hx, Hy.
  cbn [orb res_bind].
  destruct (Decimal_cmp (base_price x) (base_price y)); cbn; try reflexivity.
  unfold String.ltb.
  destruct (String.eqb_spec s t) as [->|Hne]; cbn; [|reflexivity].
  now rewrite String_compare_refl.
Qed.

Lemma key_ltb_asym x y :
  sortable x -> sortable y -> key_ltb x y = true -> key_ltb y x = false.
Proof.
  intros Hx Hy. unfold key_ltb.
  rewrite (cmp_antisym _ _ key_cmp_laws x y Hx Hy).
  destruct (key_cmp x y); simpl; congruence.
Qed.

Lemma key_le_trans x y z :
  sortable x -> sortable y -> sortable z ->
  le_of key_ltb x y -> le_of key_ltb y z -> le_of key_ltb x z.
Proof.
  intros Hx Hy Hz. unfold le_of, key_ltb. intros Hxy Hyz.
  pose proof (cmp_laws_not_lt_trans _ _ key_cmp_laws x y z Hx Hy Hz) as H.
  destruct (key_cmp y x) eqn:E1; try discriminate;
    destruct (key_cmp z y) eqn:E2; try discriminate;
    destruct (key_cmp z x); try reflexivity;
    exfalso; apply H; congruence.
Qed.

Lemma le_of_ordered x y :
  sortable x -> sortable y -> le_of key_ltb x y -> ordered x y.
Proof.
  intros Hx Hy. unfold le_of, key_ltb, ordered.
  rewrite (cmp_antisym _ _ key_cmp_laws x y Hx Hy).
  unfold key_cmp, String.leb.
  destruct (Decimal_cmp (base_price x) (base_price y)); simpl; auto;
    try discriminate.
  destruct (String.compare (departure_str x) (departure_str y)); simpl;
    auto; discriminate.
Qed.

Lemma eqv_of_tie x y :
  sortable x -> sortable y -> eqv_of key_ltb x y = tie x y.
Proof.
  intros Hx Hy. unfold eqv_of, key_ltb, tie.
  rewrite (cmp_antisym _ _ key_cmp_laws x y Hx Hy).
  unfold key_cmp.
  destruct (Decimal_cmp (base_price x) (base_price y)); simpl; auto.
  destruct (String.eqb_spec (departure_str x) (departure_str y)) as [E|E].
  - rewrite E, String_compare_refl. reflexivity.
  - destruct (String.compare (departure_str x) (departure_str y)) eqn:C;
      try reflexivity.
    apply String_compare_eq in C. contradiction.
Qed.

(** The sort of [search_all_operators] on sortable results: it returns, the
    outcome is a permutation in price-then-departure order, and results that
    tie keep their order. *)
Lemma list_sort_key_lt l :
  Forall sortable l ->
  exists out,
    list_sort key_lt l = Ok out
    /\ Permutation l out
    /\ StronglySorted ordered out
    /\ forall z, In z l -> filter (tie z) out = filter (tie z) l.
Proof.
  intros Hl.
  destruct (list_sort_spec key_lt key_ltb sortable key_lt_sortable
              key_ltb_asym key_le_trans l Hl)
    as (out & Hout & Hperm & Hsorted & Hstable).
  assert (Hall : Forall sortable out) by now apply (Permutation_Forall Hperm).
  exists out. repeat split; auto.
  - clear -Hsorted Hall. induction Hsorted as [|x xs Hxs IH Hx].
    + constructor.
    + inversion Hall as [|? ? Sx Sxs]; subst. constructor; [auto|].
      rewrite Forall_forall in *. intros y Hy.
      apply le_of_ordered; auto.
  - intros z Hz.
    assert (Sz : sortable z) by (rewrite Forall_forall in Hl; auto).
    rewrite <- (filter_ext_in (eqv_of key_ltb z) (tie z) out).
    + rewrite (Hstable z Sz). apply filter_ext_in.
      intros y Hy. apply eqv_of_tie; auto.
      rewrite Forall_forall in Hl; auto.
    + intros y Hy. apply eqv_of_tie; auto.
      rewrite Forall_forall in Hall; auto.
Qed.

(** ** Runs of the service *)

Import FerryOperatorIntegrationService.

Lemma _safe_search_run adapter request net svc :
  _safe_search adapter request net svc
  = (Ok (safe_results adapter request net), svc,
     safe_events adapter request net).
Proof.
  unfold _safe_search, try_except, lift, safe_results, safe_events,
    search_failed_record, searched, result_of, events_of.
  destruct (Adapter.search_routes adapter request net tt) as [[[l|e] []] ev];
    cbn.
  - now rewrite app_nil_r.
  - reflexivity.
Qed.

Lemma gather_safe_search request net svc
    (entries : list (string * Adapter.t)) :
  gather (map (fun entry => _safe_search (snd entry) request) entries) net svc
  = (Ok (map (fun entry => Ok (safe_results (snd entry) request net)) entries),
     svc,
     List.concat (map (fun entry => safe_events (snd entry) request net) entries)).
Proof.
  induction entries as [|entry rest IH]; [reflexivity|].
  cbn [map gather List.concat]. unfold bind at 1. unfold attempt.
  rewrite _safe_search_run. unfold bind. rewrite IH.
  unfold ret. cbn [app]. now rewrite app_nil_r.
Qed.

Lemma extend_all_ok (lists : list (list SearchResponse)) :
  forall all_results net svc,
    extend_all (map Ok lists) all_results net svc
    = (Ok (all_results ++ List.concat lists)%list, svc, []).
Proof.
  induction lists as [|l rest IH]; intros all_results net svc; cbn.
  - unfold ret. now rewrite app_nil_r.
  - rewrite IH. now rewrite <- app_assoc.
Qed.

(** [search_all_operators] is the sort of the merged per-adapter lists; it
    leaves the service as it was, and its events are those of the
    searches. *)
Lemma search_all_operators_run request net svc :
  search_all_operators request net svc
  = (list_sort key_lt (merged svc request net), svc,
     List.concat (map (fun entry => safe_events (snd entry) request net)
                 (adapters svc))).
Proof.
  unfold search_all_operators, merged.
  unfold bind at 1. unfold get_state.
  destruct (adapters svc) as [|entry rest] eqn:E; [reflexivity|].
  rewrite <- E. clear E entry rest.
  destruct (map _ (adapters svc)) eqn:E.
  - destruct (adapters svc); [reflexivity | discriminate].
  - rewrite <- E. clear E. unfold bind.
    rewrite gather_safe_search.
    rewrite <- (map_map (fun entry => safe_results (snd entry) request net) Ok).
    rewrite extend_all_ok. unfold of_res. cbn [app].
    now rewrite !app_nil_r.
Qed.

(** ** The adapters *)

Lemma Lyko_build_result_dict operator kv :
  LykoAggregatorAdapter.build_result operator (VDict kv)
  = (base_price <- Py.Decimal_of_str (Py.dict_get kv "price" (VInt 0)) ;;
     Ok {| operator_code := Py.dict_get kv "operator_code" (VStr (code operator));
           route_id := Py.dict_get kv "route_id" VNone;
           departure_time := Py.dict_get kv "departure_time" VNone;
           arrival_time := Py.dict_get kv "arrival_time" VNone;
           duration_minutes := Py.dict_get kv "duration_minutes" (VInt 0);
           available_seats := Py.dict_get kv "available_seats" (VInt 0);
           available_vehicles := Py.dict_get kv "available_vehicles" (VInt 0);
           base_price := base_price;
           currency := Py.dict_get kv "currency" (VStr "EUR");
           booking_reference := Py.dict_get kv "booking_reference" VNone;
           amenities := Py.dict_get kv "amenities" (VList []);
           vessel_name := Py.dict_get kv "vessel_name" (VStr "") |})%res.
Proof. reflexivity. Qed.

Lemma CTN_build_result_dict kv :
  CTNDirectAdapter.build_result (VDict kv)
  = (base_price <- Py.Decimal_of_str (Py.dict_get kv "fare" (VInt 0)) ;;
     Ok {| operator_code := VStr "CTN";
           route_id := Py.dict_get kv "route_id" VNone;
           departure_time := Py.dict_get kv "departure" VNone;
           arrival_time := Py.dict_get kv "arrival" VNone;
           duration_minutes := Py.dict_get kv "duration" VNone;
           available_seats := Py.dict_get kv "seats_available" VNone;
           available_vehicles := Py.dict_get kv "vehicles_available" VNone;
           base_price := base_price;
           currency := Py.dict_get kv "currency" (VStr "TND");
           booking_reference := VNone;
           amenities := Py.dict_get kv "services" (VList []);
           vessel_name := Py.dict_get kv "vessel" VNone |})%res.
Proof. reflexivity. Qed.

Lemma Lyko_build_result_with_normalize Decimal_of_str operator item :
  LykoAggregatorAdapter.build_result_with Decimal_of_str operator item
  = normalize Decimal_of_str "price" (Lyko_normalized operator) item.
Proof.
  destruct item; reflexivity.
Qed.

Lemma CTN_build_result_with_normalize Decimal_of_str item :
  CTNDirectAdapter.build_result_with Decimal_of_str item
  = normalize Decimal_of_str "fare" CTN_normalized item.
Proof.
  destruct item; reflexivity.
Qed.

Lemma kept_ext {A B} (build1 build2 : A -> res B) items :
  (forall item, build1 item = build2 item) ->
  kept build1 items = kept build2 items.
Proof.
  intros H. unfold kept. apply flat_map_ext. intros item. now rewrite H.
Qed.

Lemma warnings_ext {A B} logger prefix (build1 build2 : A -> res B) items :
  (forall item, build1 item = build2 item) ->
  warnings logger prefix build1 items = warnings logger prefix build2 items.
Proof.
  intros H. unfold warnings. apply flat_map_ext. intros item. now rewrite H.
Qed.

Lemma warnings_length {A B} logger prefix (build : A -> res B) items :
  List.length (warnings logger prefix build items)
  = List.length (filter (fun item => negb (is_ok (build item))) items).
Proof.
  induction items as [|item rest IH]; [reflexivity|].
  cbn [warnings flat_map filter]. rewrite length_app.
  change (flat_map _ rest) with (warnings logger prefix build rest).
  rewrite IH. destruct (build item); reflexivity.
Qed.

Lemma normalize_ok Decimal_of_str price_key normalized item :
  is_ok (normalize Decimal_of_str price_key normalized item)
  = negb (malformed Decimal_of_str price_key item).
Proof.
  destruct item; try reflexivity.
  unfold normalize, malformed.
  destruct (Decimal_of_str _); reflexivity.
Qed.

Lemma kept_In {A B} (build : A -> res B) items r :
  In r (kept build items) <-> exists item, In item items /\ build item = Ok r.
Proof.
  unfold kept. rewrite in_flat_map. split.
  - intros (item & Hin & Hr). exists item. split; [exact Hin|].
    destruct (build item) as [r'|e]; [|contradiction].
    destruct Hr as [->|[]]. reflexivity.
  - intros (item & Hin & Hr). exists item. split; [exact Hin|].
    rewrite Hr. now left.
Qed.

Lemma _parse_search_response_with_run {St} Decimal_of_str operator data net
    (st : St) :
  LykoAggregatorAdapter._parse_search_response_with Decimal_of_str operator
    data net st
  = match entries "results" data with
    | Ok items =>
        (Ok (kept (LykoAggregatorAdapter.build_result_with Decimal_of_str
                     operator) items), st,
         warnings (adapter_logger operator) "Failed to parse search result: "
           (LykoAggregatorAdapter.build_result_with Decimal_of_str operator)
           items)
    | Raise e => (Raise e, st, [])
    end.
Proof.
  unfold LykoAggregatorAdapter._parse_search_response_with, entries, bind,
    of_res.
  destruct (Py.get data "results" (VList [])) as [found|e]; [|reflexivity].
  cbn [res_bind]. destruct (Py.iter found) as [items|e]; [|reflexivity].
  rewrite append_parsed_run. reflexivity.
Qed.

Lemma _parse_ctn_response_with_run {St} Decimal_of_str operator data net
    (st : St) :
  CTNDirectAdapter._parse_ctn_response_with Decimal_of_str operator data net
    st
  = match entries "sailings" data with
    | Ok items =>
        (Ok (kept (CTNDirectAdapter.build_result_with Decimal_of_str) items),
         st,
         warnings (adapter_logger operator) "Failed to parse CTN result: "
           (CTNDirectAdapter.build_result_with Decimal_of_str) items)
    | Raise e => (Raise e, st, [])
    end.
Proof.
  unfold CTNDirectAdapter._parse_ctn_response_with, entries, bind, of_res.
  destruct (Py.get data "sailings" (VList [])) as [found|e]; [|reflexivity].
  cbn [res_bind]. destruct (Py.iter found) as [items|e]; [|reflexivity].
  rewrite append_parsed_run. reflexivity.
Qed.

Lemma _parse_search_response_run {St} operator data net (st : St) :
  LykoAggregatorAdapter._parse_search_response operator data net st
  = match entries "results" data with
    | Ok items =>
        (Ok (kept (LykoAggregatorAdapter.build_result operator) items), st,
         warnings (adapter_logger operator) "Failed to parse search result: "
           (LykoAggregatorAdapter.build_result operator) items)
    | Raise e => (Raise e, st, [])
    end.
Proof. apply _parse_search_response_with_run. Qed.

Lemma _parse_ctn_response_run {St} operator data net (st : St) :
  CTNDirectAdapter._parse_ctn_response operator data net st
  = match entries "sailings" data with
    | Ok items =>
        (Ok (kept CTNDirectAdapter.build_result items), st,
         warnings (adapter_logger operator) "Failed to parse CTN result: "
           CTNDirectAdapter.build_result items)
    | Raise e => (Raise e, st, [])
    end.
Proof. apply _parse_ctn_response_with_run. Qed.

Lemma Lyko_search_routes_run operator request net :
  LykoAggregatorAdapter.search_routes operator request net tt
  = let call := LykoAggregatorAdapter.search_call operator request in
    let failed e := (Ok [], tt, [Call call; search_error operator "Search error: " e]) in
    match net call with
    | Raise e => failed e
    | Ok response =>
        if status response =? 200 then
          match json_body response with
          | Raise e => failed e
          | Ok data =>
              match entries "results" data with
              | Raise e => failed e
              | Ok items =>
                  (Ok (kept (LykoAggregatorAdapter.build_result operator) items),
                   tt,
                   Call call
                   :: warnings (adapter_logger operator)
                        "Failed to parse search result: "
                        (LykoAggregatorAdapter.build_result operator) items)
              end
          end
        else
          match text_body response with
          | Raise e => failed e
          | Ok text =>
              (Ok [], tt,
               [Call call;
                Log ERROR (adapter_logger operator)
                    ("Search failed: " ++ Py.str_int (status response)
                     ++ " - " ++ text)])
          end
    end.
Proof.
  unfold LykoAggregatorAdapter.search_routes, try_except.
  unfold bind at 1. unfold send.
  destruct (net (LykoAggregatorAdapter.search_call operator request))
    as [response|e]; [|reflexivity].
  cbv zeta. destruct (status response =? 200).
  - unfold bind, of_res.
    destruct (json_body response) as [data|e]; [|reflexivity].
    rewrite _parse_search_response_run.
    destruct (entries "results" data); reflexivity.
  - unfold bind, of_res.
    destruct (text_body response); reflexivity.
Qed.

Lemma CTN_search_routes_run operator request net :
  CTNDirectAdapter.search_routes operator request net tt
  = let call := CTNDirectAdapter.search_call operator request in
    let failed e :=
      (Ok [], tt, [Call call; search_error operator "CTN search error: " e]) in
    match net call with
    | Raise e => failed e
    | Ok response =>
        if status response =? 200 then
          match json_body response with
          | Raise e => failed e
          | Ok data =>
              match entries "sailings" data with
              | Raise e => failed e
              | Ok items =>
                  (Ok (kept CTNDirectAdapter.build_result items), tt,
                   Call call
                   :: warnings (adapter_logger operator)
                        "Failed to parse CTN result: "
                        CTNDirectAdapter.build_result items)
              end
          end
        else
          (Ok [], tt,
           [Call call;
            Log ERROR (adapter_logger operator)
                ("CTN search failed: " ++ Py.str_int (status response))])
    end.
Proof.
  unfold CTNDirectAdapter.search_routes, try_except.
  unfold bind at 1. unfold send.
  destruct (net (CTNDirectAdapter.search_call operator request))
    as [response|e]; [|reflexivity].
  cbv zeta. destruct (status response =? 200).
  - unfold bind, of_res.
    destruct (json_body response) as [data|e]; [|reflexivity].
    rewrite _parse_ctn_response_run.
    destruct (entries "sailings" data); reflexivity.
  - reflexivity.
Qed.

(** ** Claims on the adapters *)

(** C3.  An adapter's search never raises.  When the transport fails, the
    status is not 200, or the body as a whole cannot be read as a sequence of
    entries, it returns the empty list, and what it leaves behind is the call
    it made and one error record in its log. *)
Theorem adapter_search_contains_failures :
  forall operator request net,
    (exists l,
        result_of (LykoAggregatorAdapter.search_routes operator request net tt)
        = Ok l)
    /\ (exists l,
           result_of (CTNDirectAdapter.search_routes operator request net tt)
           = Ok l)
    /\ (whole_response_failure "results"
          (net (LykoAggregatorAdapter.search_call operator request)) ->
        exists msg,
          LykoAggregatorAdapter.search_routes operator request net tt
          = (Ok [], tt,
             [Call (LykoAggregatorAdapter.search_call operator request);
              Log ERROR (adapter_logger operator) msg]))
    /\ (whole_response_failure "sailings"
          (net (CTNDirectAdapter.search_call operator request)) ->
        exists msg,
          CTNDirectAdapter.search_routes operator request net tt
          = (Ok [], tt,
             [Call (CTNDirectAdapter.search_call operator request);
              Log ERROR (adapter_logger operator) msg])).
Proof.
  intros operator request net.
  rewrite Lyko_search_routes_run, CTN_search_routes_run. cbv zeta.
  unfold whole_response_failure, search_error.
  repeat split.
  - destruct (net _) as [response|e]; [|cbn; eauto].
    destruct (status response =? 200).
    + destruct (json_body response) as [data|e]; [|cbn; eauto].
      destruct (entries "results" data); cbn; eauto.
    + destruct (text_body response); cbn; eauto.
  - destruct (net _) as [response|e]; [|cbn; eauto].
    destruct (status response =? 200); [|cbn; eauto].
    destruct (json_body response) as [data|e]; [|cbn; eauto].
    destruct (entries "sailings" data); cbn; eauto.
  - destruct (net _) as [response|e]; [|eauto].
    intros [Hs|[[e He]|(data & e & Hd & He)]].
    + apply Z.eqb_neq in Hs. rewrite Hs.
      destruct (text_body response); eauto.
    + destruct (status response =? 200).
      * rewrite He. eauto.
      * destruct (text_body response); eauto.
    + destruct (status response =? 200).
      * rewrite Hd, He. eauto.
      * destruct (text_body response); eauto.
  - destruct (net _) as [response|e]; [|eauto].
    intros [Hs|[[e He]|(data & e & Hd & He)]].
    + apply Z.eqb_neq in Hs. rewrite Hs. eauto.
    + destruct (status response =? 200); [rewrite He|]; eauto.
    + destruct (status response =? 200); [rewrite Hd, He|]; eauto.
Qed.

Lemma adapter_search_contains_failures_witness :
  (exists msg,
      LykoAggregatorAdapter.search_routes Scenario.aaa Scenario.request
        Scenario.net_down tt
      = (Ok [], tt,
         [Call (LykoAggregatorAdapter.search_call Scenario.aaa Scenario.request);
          Log ERROR (adapter_logger Scenario.aaa) msg]))
  /\ (exists msg,
         CTNDirectAdapter.search_routes Scenario.ctn Scenario.request
           (fun _ => Scenario.reply 200 (VList [])) tt
         = (Ok [], tt,
            [Call (CTNDirectAdapter.search_call Scenario.ctn Scenario.request);
             Log ERROR (adapter_logger Scenario.ctn) msg])).
Proof.
  split.
  - apply (adapter_search_contains_failures
             Scenario.aaa Scenario.request Scenario.net_down).
    exact I.
  - apply (adapter_search_contains_failures
             Scenario.ctn Scenario.request
             (fun _ => Scenario.reply 200 (VList []))).
    right. right. exists (VList []), (Py.AttributeError (VList []) "get").
    split; reflexivity.
Defined.

(** C4.  Whatever strings the decimal constructor accepts, the response
    mappers go through the entries of a response in order and return, for
    every entry that is valid, its normalized result (each field of the
    entry under its normalized name, the price as the constructor read it);
    they skip exactly the malformed entries (those that are not objects and
    those whose price the constructor refuses) and log one warning for each.
    So the results are as many as the valid entries, and each of them comes
    from a valid entry of that response. *)
Theorem response_mapping_skips_malformed_entries :
  forall Decimal_of_str operator data items net,
    (entries "results" data = Ok items ->
     LykoAggregatorAdapter._parse_search_response_with Decimal_of_str operator
       data net tt
     = (Ok (kept (normalize Decimal_of_str "price" (Lyko_normalized operator))
              items), tt,
        warnings (adapter_logger operator) "Failed to parse search result: "
          (normalize Decimal_of_str "price" (Lyko_normalized operator)) items))
    /\ (entries "sailings" data = Ok items ->
        CTNDirectAdapter._parse_ctn_response_with Decimal_of_str operator data
          net tt
        = (Ok (kept (normalize Decimal_of_str "fare" CTN_normalized) items),
           tt,
           warnings (adapter_logger operator) "Failed to parse CTN result: "
             (normalize Decimal_of_str "fare" CTN_normalized) items))
    /\ (forall price_key normalized logger prefix,
           (forall r,
               In r (kept (normalize Decimal_of_str price_key normalized)
                       items)
               <-> exists kv price,
                     In (VDict kv) items
                     /\ Decimal_of_str (Py.dict_get kv price_key (VInt 0))
                        = Ok price
                     /\ r = normalized kv price)
           /\ List.length
                (kept (normalize Decimal_of_str price_key normalized) items)
              = List.length
                  (filter (fun item =>
                             negb (malformed Decimal_of_str price_key item))
                          items)
           /\ List.length
                (warnings logger prefix
                   (normalize Decimal_of_str price_key normalized) items)
              = List.length
                  (filter (malformed Decimal_of_str price_key) items)).
Proof.
  intros Decimal_of_str operator data items net.
  split; [|split].
  - intros H. rewrite _parse_search_response_with_run, H.
    rewrite (kept_ext _ _ items
               (Lyko_build_result_with_normalize Decimal_of_str operator)).
    rewrite (warnings_ext _ _ _ _ items
               (Lyko_build_result_with_normalize Decimal_of_str operator)).
    reflexivity.
  - intros H. rewrite _parse_ctn_response_with_run, H.
    rewrite (kept_ext _ _ items
               (CTN_build_result_with_normalize Decimal_of_str)).
    rewrite (warnings_ext _ _ _ _ items
               (CTN_build_result_with_normalize Decimal_of_str)).
    reflexivity.
  - intros price_key normalized logger prefix. split; [|split].
    + intros r. rewrite kept_In. split.
      * intros (item & Hin & Hr). destruct item; try discriminate.
        unfold normalize in Hr.
        destruct (Decimal_of_str (Py.dict_get kv price_key (VInt 0)))
          as [price|e] eqn:E; [|discriminate].
        exists kv, price. split; [exact Hin|]. split; [exact E|].
        congruence.
      * intros (kv & price & Hin & Hp & ->). exists (VDict kv).
        split; [exact Hin|]. unfold normalize. now rewrite Hp.
    + rewrite kept_length. f_equal. apply filter_ext. intros item.
      apply normalize_ok.
    + rewrite warnings_length. f_equal. apply filter_ext. intros item.
      rewrite normalize_ok. apply negb_involutive.
Qed.

(** three valid entries and one malformed entry: the three normalized
    results, and one warning *)
Lemma response_mapping_skips_malformed_entries_witness :
  LykoAggregatorAdapter._parse_search_response Scenario.aaa
    Scenario.three_and_one Scenario.net_down tt
  = (Ok [Scenario.full_entry_result (DFin false 895 (-1)) "08:00";
         Scenario.full_entry_result (DFin false 9500 (-2)) "20:00";
         Scenario.full_entry_result (DFin false 120 0) "22:30"], tt,
     [Log WARNING "ferry_adapter.AAA"
          "Failed to parse search result: [<class 'decimal.ConversionSyntax'>]"])
  /\ CTNDirectAdapter._parse_ctn_response Scenario.ctn
       Scenario.three_and_one Scenario.net_down tt
     = (Ok [Scenario.full_sailing_result (DFin false 70 0) "06:00";
            Scenario.full_sailing_result (DFin false 725 (-1)) "07:00";
            Scenario.full_sailing_result (DFin false 955 (-1)) "09:00"], tt,
        [Log WARNING "ferry_adapter.CTN"
             "Failed to parse CTN result: [<class 'decimal.ConversionSyntax'>]"]).
Proof.
  split.
  - exact (proj1 (response_mapping_skips_malformed_entries
                    Py.Decimal_of_str Scenario.aaa Scenario.three_and_one
                    [Scenario.full_entry (VFloat (DFin false 895 (-1))) "08:00";
                     Scenario.full_entry (VStr "n/a") "09:00";
                     Scenario.full_entry (VStr "95.00") "20:00";
                     Scenario.full_entry (VInt 120) "22:30"]
                    Scenario.net_down) eq_refl).
  - exact (proj1 (proj2 (response_mapping_skips_malformed_entries
                    Py.Decimal_of_str Scenario.ctn Scenario.three_and_one
                    [Scenario.full_sailing (VInt 70) "06:00";
                     Scenario.full_sailing (VStr "72.5") "07:00";
                     Scenario.full_sailing VNone "08:00";
                     Scenario.full_sailing (VFloat (DFin false 955 (-1))) "09:00"]
                    Scenario.net_down)) eq_refl).
Defined.

(** ** Claims on the merged search *)

Lemma merged_successes svc request net :
  List.concat (successes svc request net) = merged svc request net.
Proof.
  unfold successes, merged, safe_results.
  induction (adapters svc) as [|entry rest IH]; [reflexivity|].
  cbn [flat_map map List.concat]. rewrite concat_app, IH.
  destruct (result_of (searched (snd entry) request net)); cbn;
    now rewrite ?app_nil_r.
Qed.

Lemma StronglySorted_before {A} (R : A -> A -> Prop) a b l :
  StronglySorted R l -> before a b l -> R a b.
Proof.
  intros Hs (l1 & l2 & l3 & ->).
  induction l1 as [|x l1 IH]; cbn in Hs.
  - inversion Hs as [|? ? _ Hall]; subst.
    rewrite Forall_forall in Hall. apply Hall.
    apply in_or_app. right. now left.
  - inversion Hs; subst. auto.
Qed.

Lemma search_all_operators_sorted_lemma svc request net :
  Forall sortable (merged svc request net) ->
  exists out,
    result_of (search_all_operators request net svc) = Ok out
    /\ Permutation (merged svc request net) out
    /\ StronglySorted ordered out
    /\ forall z, In z (merged svc request net) ->
         filter (tie z) out = filter (tie z) (merged svc request net).
Proof.
  intros H. rewrite search_all_operators_run. cbn [result_of fst].
  now apply list_sort_key_lt.
Qed.

(** C1, as the code has it.  When every merged result has a sort key that
    can be ordered (a price that is a number, a departure time that is a
    string), [search_all_operators] returns the merged results sorted by
    ascending price, then by ascending departure string; results that tie on
    both keep the order they have in the concatenation of the per-adapter
    lists, adapters taken in the order of the adapter map.  The operator
    code plays no part. *)
Theorem search_all_operators_sorted_stable :
  forall svc request net,
    Forall sortable (merged svc request net) ->
    exists out,
      result_of (search_all_operators request net svc) = Ok out
      /\ Permutation (merged svc request net) out
      /\ StronglySorted ordered out
      /\ forall z, In z (merged svc request net) ->
           filter (tie z) out = filter (tie z) (merged svc request net).
Proof.
  exact search_all_operators_sorted_lemma.
Qed.

Lemma search_all_operators_sorted_stable_witness :
  exists out,
    result_of (search_all_operators Scenario.request Scenario.net_tie
                 Scenario.aaa_and_ctn) = Ok out
    /\ Permutation
         (merged Scenario.aaa_and_ctn Scenario.request Scenario.net_tie) out
    /\ StronglySorted ordered out
    /\ forall z,
         In z (merged Scenario.aaa_and_ctn Scenario.request Scenario.net_tie) ->
         filter (tie z) out
         = filter (tie z)
             (merged Scenario.aaa_and_ctn Scenario.request Scenario.net_tie).
Proof.
  apply (search_all_operators_sorted_stable
           Scenario.aaa_and_ctn Scenario.request Scenario.net_tie).
  repeat constructor; eexists; reflexivity.
Defined.

(** C1, as stated, fails: with ZZZ registered before AAA and one tied
    result from each, the result of ZZZ comes first. *)
Lemma tie_not_broken_by_operator_code :
  exists out,
    result_of (search_all_operators Scenario.request Scenario.net_tie
                 Scenario.zzz_then_aaa) = Ok out
    /\ ~ tie_broken_by_operator_code
           (map (fun entry =>
                   safe_results (snd entry) Scenario.request Scenario.net_tie)
                (adapters Scenario.zzz_then_aaa))
           out.
Proof.
  eexists. split; [vm_compute; reflexivity|].
  intros H.
  pose (r c := {| operator_code := VStr c; route_id := VStr "R1";
                  departure_time := VStr "08:00"; arrival_time := VNone;
                  duration_minutes := VInt 0; available_seats := VInt 0;
                  available_vehicles := VInt 0;
                  base_price := DFin false 80 0; currency := VStr "EUR";
                  booking_reference := VNone; amenities := VList [];
                  vessel_name := VStr "" |}).
  specialize (H [r "AAA"] [r "ZZZ"] 0%nat (r "AAA") (r "ZZZ") "AAA" "ZZZ").
  destruct H as (l1 & l2 & l3 & E);
    try reflexivity;
    try (vm_compute; auto; fail).
  destruct l1 as [|x [|y l1]]; [ | destruct l2 | destruct l1 ]; discriminate.
Qed.

Lemma safe_events_raise adapter request net e :
  search_raises adapter request net e ->
  safe_results adapter request net = []
  /\ In (search_failed_record adapter e) (safe_events adapter request net).
Proof.
  unfold search_raises, safe_results, safe_events. intros ->.
  split; [reflexivity|]. apply in_or_app. right. now left.
Qed.

Lemma in_concat_map {A B} (f : A -> list B) x y l :
  In x l -> In y (f x) -> In y (List.concat (map f l)).
Proof.
  intros Hx Hy. apply in_concat. exists (f x). split; [|assumption].
  now apply in_map.
Qed.

(** C2, as the code has it.  An adapter whose search raises is treated as
    one that returned nothing: it adds no result, the service is left as it
    was, and one error record naming its operator is logged.  When the
    results of the adapters that returned have sort keys that can be
    ordered, the call returns, and what it returns is a rearrangement of
    exactly those results.  The returned value is the bare list: it holds no
    outcome map. *)
Theorem search_all_operators_isolates_failures :
  forall svc request net,
    Forall sortable (List.concat (successes svc request net)) ->
    exists out,
      result_of (search_all_operators request net svc) = Ok out
      /\ state_of (search_all_operators request net svc) = svc
      /\ Permutation (List.concat (successes svc request net)) out
      /\ (forall operator_code adapter l,
             In (operator_code, adapter) (adapters svc) ->
             result_of (searched adapter request net) = Ok l ->
             incl l out)
      /\ (forall operator_code adapter e,
             In (operator_code, adapter) (adapters svc) ->
             search_raises adapter request net e ->
             safe_results adapter request net = []
             /\ In (search_failed_record adapter e)
                   (events_of (search_all_operators request net svc))).
Proof.
  intros svc request net H. rewrite merged_successes in *.
  destruct (list_sort_key_lt _ H) as (out & Hout & Hperm & _).
  exists out. rewrite search_all_operators_run.
  cbn [result_of state_of events_of fst snd].
  split; [exact Hout|]. split; [reflexivity|]. split; [exact Hperm|]. split.
  - intros c adapter l Hin Hl x Hx.
    apply (Permutation_in _ Hperm). unfold merged.
    apply (in_concat_map
             (fun entry => safe_results (snd entry) request net)
             (c, adapter)); [assumption|].
    cbn. unfold safe_results. now rewrite Hl.
  - intros c adapter e Hin He.
    destruct (safe_events_raise adapter request net e He) as [Hnone Hlog].
    split; [exact Hnone|].
    apply (in_concat_map
             (fun entry => safe_events (snd entry) request net)
             (c, adapter)); assumption.
Qed.

Lemma search_all_operators_isolates_failures_witness :
  exists out,
    result_of (search_all_operators Scenario.request Scenario.net_tie
                 Scenario.with_base) = Ok out
    /\ state_of (search_all_operators Scenario.request Scenario.net_tie
                   Scenario.with_base) = Scenario.with_base
    /\ Permutation
         (List.concat
            (successes Scenario.with_base Scenario.request Scenario.net_tie))
         out
    /\ (forall operator_code adapter l,
           In (operator_code, adapter) (adapters Scenario.with_base) ->
           result_of (searched adapter Scenario.request Scenario.net_tie)
           = Ok l ->
           incl l out)
    /\ (forall operator_code adapter e,
           In (operator_code, adapter) (adapters Scenario.with_base) ->
           search_raises adapter Scenario.request Scenario.net_tie e ->
           safe_results adapter Scenario.request Scenario.net_tie = []
           /\ In (search_failed_record adapter e)
                 (events_of
                    (search_all_operators Scenario.request Scenario.net_tie
                       Scenario.with_base))).
Proof.
  apply (search_all_operators_isolates_failures
           Scenario.with_base Scenario.request Scenario.net_tie).
  repeat constructor; eexists; reflexivity.
Defined.

(** C2, as stated, fails: nothing read off the returned list can tell an
    adapter that raised from one that returned no result. *)
Lemma no_outcome_map_in_the_response :
  ~ exists read, marks_exactly_the_failed read.
Proof.
  intros [read H].
  assert (Hbase : read [] "ZZZ" = Some Failed).
  { apply (H Scenario.with_base Scenario.request Scenario.net_empty "ZZZ"
             (BaseFerryOperatorAdapter.new Scenario.zzz) []);
      [reflexivity | reflexivity |].
    exists NotImplementedError. reflexivity. }
  apply (H Scenario.with_lyko Scenario.request Scenario.net_empty "ZZZ"
           (LykoAggregatorAdapter.new Scenario.zzz) []) in Hbase;
    [|reflexivity|reflexivity].
  destruct Hbase as [e He]. discriminate He.
Qed.


(** ** Registration *)

Lemma bind_run_ext {St A B} (m : M St A) (k1 k2 : A -> M St B) net st :
  (forall a st', k1 a net st' = k2 a net st') ->
  bind m k1 net st = bind m k2 net st.
Proof.
  intros H. unfold bind.
  destruct (m net st) as [[[a|e] st'] ev]; [now rewrite H | reflexivity].
Qed.

Lemma initialize_loop_skip create operator rest net st :
  is_active operator = false ->
  initialize_loop create (operator :: rest) net st
  = initialize_loop create rest net st.
Proof.
  intros H. cbn [initialize_loop]. unfold bind at 1. rewrite H.
  cbn. destruct (initialize_loop create rest net st) as [[r st'] ev].
  reflexivity.
Qed.

Lemma initialize_loop_filter create operators net st :
  initialize_loop create operators net st
  = initialize_loop create (filter is_active operators) net st.
Proof.
  revert st. induction operators as [|operator rest IH]; intros st;
    [reflexivity|].
  cbn [filter]. destruct (is_active operator) eqn:E.
  - cbn [initialize_loop]. apply bind_run_ext. intros _ st'. apply IH.
  - rewrite initialize_loop_skip by assumption. apply IH.
Qed.

Lemma initialize_with_filter create operators net st :
  initialize_with create operators net st
  = initialize_with create (filter is_active operators) net st.
Proof.
  unfold initialize_with, bind, get_state, put_state.
  now rewrite initialize_loop_filter.
Qed.

(** one turn of the loop never raises, whatever the constructor does *)
Lemma initialize_step_ok create operator net st :
  exists st' ev,
    try_except
      (adapter <- create operator ;;
       set_adapter (code operator) adapter ;;
       log INFO logger ("Initialized adapter for " ++ code operator))%eff
      (fun e =>
         log ERROR logger
           ("Failed to initialize " ++ code operator ++ ": " ++ str_exn e))
      net st
    = (Ok tt, st', ev).
Proof.
  unfold try_except, bind, set_adapter, get_state, put_state, log.
  destruct (create operator net st) as [[[adapter|e] st'] ev]; cbn; eauto.
Qed.

Lemma initialize_loop_ok create operators :
  forall net st,
    result_of (initialize_loop create operators net st) = Ok tt.
Proof.
  induction operators as [|operator rest IH]; intros net st; [reflexivity|].
  cbn [initialize_loop]. unfold bind at 1.
  destruct (is_active operator); cbn [negb].
  - destruct (initialize_step_ok create operator net st) as (st' & ev & ->).
    specialize (IH net st'). unfold result_of in *.
    destruct (initialize_loop create rest net st') as [[r st''] ev'].
    exact IH.
  - cbn. specialize (IH net st). unfold result_of in *.
    destruct (initialize_loop create rest net st) as [[r st''] ev'].
    exact IH.
Qed.

Lemma initialize_loop_construct construct operators :
  forall net st,
    Forall (fun operator => is_active operator = true) operators ->
    initialize_loop (fun operator => of_res (construct operator)) operators
      net st
    = (Ok tt,
       {| adapters := registered construct operators (adapters st);
          session := session st |},
       map (initialize_record construct) operators).
Proof.
  induction operators as [|operator rest IH]; intros net st Hall.
  - destruct st; reflexivity.
  - inversion Hall as [|? ? Hon Hrest]; subst.
    cbn [initialize_loop]. unfold bind at 1. rewrite Hon. cbn [negb].
    remember (initialize_loop (fun operator => of_res (construct operator))
                rest) as loop eqn:Hloop.
    unfold try_except, bind, of_res, set_adapter, get_state, put_state, log.
    unfold registered, initialize_record. cbn [fold_left map].
    destruct (construct operator) as [adapter|e]; unfold bind;
      cbn [app]; subst loop; rewrite IH by assumption; reflexivity.
Qed.

Lemma filter_is_active_all operators :
  Forall (fun operator => is_active operator = true)
         (filter is_active operators).
Proof.
  apply Forall_forall. intros operator H. now apply filter_In in H.
Qed.

Lemma _create_adapter_construct operator :
  _create_adapter operator = of_res (construct_selected operator).
Proof.
  unfold _create_adapter, construct_selected, selected_class.
  destruct (String.eqb (integration_status operator) "lyko"); [reflexivity|].
  destruct (String.eqb (code operator) "CTN" && truthy (api_endpoint operator));
    reflexivity.
Qed.

Lemma initialize_loop_ext create1 create2 operators :
  (forall operator, create1 operator = create2 operator) ->
  forall net st,
    initialize_loop create1 operators net st
    = initialize_loop create2 operators net st.
Proof.
  intros H. induction operators as [|operator rest IH]; intros net st;
    [reflexivity|].
  cbn [initialize_loop]. rewrite H.
  apply bind_run_ext. intros _ st'. apply IH.
Qed.

(** the adapter map and the log of [initialize] *)
Lemma initialize_run operators net st :
  initialize operators net st
  = (Ok tt,
     {| adapters :=
          registered construct_selected (filter is_active operators)
            (adapters st);
        session := OpenSession |},
     map (initialize_record construct_selected) (filter is_active operators)).
Proof.
  unfold initialize. rewrite initialize_with_filter.
  unfold initialize_with, bind, get_state, put_state.
  rewrite (initialize_loop_ext _ _ _ _create_adapter_construct).
  rewrite initialize_loop_construct by apply filter_is_active_all.
  reflexivity.
Qed.

(** C8, as the code has it.  [initialize] never raises, whatever the
    constructor of an adapter does; operators that are not active are passed
    over as if they were not in the list; an operator whose adapter cannot
    be constructed is logged and left out, and the others are registered all
    the same.  The class of the adapter is decided by the operator's code
    together with its integration settings: the CTN adapter for the
    operator whose code is CTN, when it has an endpoint of its own and is
    not marked for the aggregator; the Lyko adapter for every other
    operator. *)
Theorem initialize_registers_active_operators :
  forall create construct operators net svc,
    result_of (initialize_with create operators net svc) = Ok tt
    /\ initialize_with create operators net svc
       = initialize_with create (filter is_active operators) net svc
    /\ initialize_with (fun operator => of_res (construct operator))
         operators net svc
       = (Ok tt,
          {| adapters :=
               registered construct (filter is_active operators)
                 (adapters svc);
             session := OpenSession |},
          map (initialize_record construct) (filter is_active operators))
    /\ initialize operators net svc
       = initialize_with (fun operator => of_res (construct_selected operator))
           operators net svc
    /\ (forall operator,
           exists adapter,
             _create_adapter operator net svc = (Ok adapter, svc, [])
             /\ Adapter.operator adapter = operator
             /\ Adapter.class adapter = selected_class operator
             /\ (Adapter.class adapter = CTNDirectAdapterClass
                 <-> integration_status operator <> "lyko"
                     /\ code operator = "CTN"
                     /\ exists endpoint,
                          api_endpoint operator = Some endpoint
                          /\ endpoint <> "")).
Proof.
  intros create construct operators net svc. repeat split.
  - unfold initialize_with, bind, get_state, put_state.
    pose proof (initialize_loop_ok create operators net
                  {| adapters := adapters svc; session := OpenSession |}) as H.
    unfold result_of in *.
    destruct (initialize_loop create operators net _) as [[r st] ev].
    exact H.
  - apply initialize_with_filter.
  - rewrite initialize_with_filter.
    unfold initialize_with, bind, get_state, put_state.
    rewrite initialize_loop_construct by apply filter_is_active_all.
    reflexivity.
  - unfold initialize, initialize_with, bind, get_state, put_state.
    now rewrite (initialize_loop_ext _ _ _ _create_adapter_construct).
  - intros operator. rewrite _create_adapter_construct.
    unfold construct_selected, of_res, selected_class, truthy.
    destruct (String.eqb_spec (integration_status operator) "lyko") as [E|E];
      [|destruct (String.eqb_spec (code operator) "CTN") as [C|C];
        [destruct (api_endpoint operator) as [endpoint|] eqn:Ep;
         [destruct (String.eqb_spec endpoint "") as [N|N]|]|]];
      cbn [andb negb];
      (eexists; split; [reflexivity|]; split; [reflexivity|];
       split; [reflexivity|]; cbn [Adapter.class LykoAggregatorAdapter.new
                                   CTNDirectAdapter.new]; split).
    all: try discriminate.
    + intros [Hl _]. contradiction.
    + intros (_ & _ & x & Hx & Hne). congruence.
    + intros _. repeat split; auto. exists endpoint. auto.
    + reflexivity.
    + intros (_ & _ & x & Hx & _). discriminate.
    + intros (_ & Hc & _). contradiction.
Qed.

Lemma initialize_registers_active_operators_witness :
  initialize_with (fun operator => of_res (Scenario.fragile operator))
    [Scenario.zzz; Scenario.off; Scenario.aaa; Scenario.ctn]
    Scenario.net_down new
  = (Ok tt,
     {| adapters := [("AAA", LykoAggregatorAdapter.new Scenario.aaa);
                     ("CTN", CTNDirectAdapter.new Scenario.ctn)];
        session := OpenSession |},
     [Log ERROR logger "Failed to initialize ZZZ: malformed endpoint";
      Log INFO logger "Initialized adapter for AAA";
      Log INFO logger "Initialized adapter for CTN"]).
Proof.
  exact (proj1 (proj2 (proj2
           (initialize_registers_active_operators
              _create_adapter Scenario.fragile
              [Scenario.zzz; Scenario.off; Scenario.aaa; Scenario.ctn]
              Scenario.net_down new)))).
Defined.

(** C8, as stated, fails: the integration pattern does not decide the class
    of the adapter.  GNV and CTN have the same integration status and the
    same endpoint of their own; GNV gets the adapter of the aggregator, CTN
    the direct one. *)
Lemma adapter_class_not_selected_by_integration_pattern :
  ~ selected_by_integration_pattern
  /\ integration_settings Scenario.gnv = integration_settings Scenario.ctn
  /\ result_of (_create_adapter Scenario.gnv Scenario.net_down new)
     = Ok (LykoAggregatorAdapter.new Scenario.gnv)
  /\ result_of (_create_adapter Scenario.ctn Scenario.net_down new)
     = Ok (CTNDirectAdapter.new Scenario.ctn).
Proof.
  split; [|repeat split].
  intros [lookup H].
  pose proof (H Scenario.gnv Scenario.net_down new
                (LykoAggregatorAdapter.new Scenario.gnv) eq_refl) as Hg.
  pose proof (H Scenario.ctn Scenario.net_down new
                (CTNDirectAdapter.new Scenario.ctn) eq_refl) as Hc.
  change (integration_settings Scenario.ctn)
    with (integration_settings Scenario.gnv) in Hc.
  rewrite <- Hc in Hg. discriminate Hg.
Qed.

(** C5.  With no adapter in the map the search returns the empty list at
    once, with no call made and nothing logged; operators that are all
    inactive leave the map empty; and when every adapter fails or finds
    nothing the search still returns the empty list. *)
Theorem search_all_operators_empty :
  forall svc request net operators,
    (adapters svc = [] ->
     search_all_operators request net svc = (Ok [], svc, []))
    /\ (Forall (fun operator => is_active operator = false) operators ->
        adapters (state_of (initialize operators net new)) = [])
    /\ (Forall (fun entry => safe_results (snd entry) request net = [])
               (adapters svc) ->
        result_of (search_all_operators request net svc) = Ok []
        /\ state_of (search_all_operators request net svc) = svc).
Proof.
  intros svc request net operators. repeat split.
  - intros H. rewrite search_all_operators_run. unfold merged.
    now rewrite H.
  - intros Hall. unfold initialize.
    rewrite initialize_with_filter.
    replace (filter is_active operators) with (@nil FerryOperator);
      [reflexivity|].
    induction Hall as [|operator rest Hoff _ IH]; [reflexivity|].
    cbn. now rewrite Hoff.
  - rewrite search_all_operators_run. cbn [result_of fst].
    replace (merged svc request net) with (@nil SearchResponse);
      [reflexivity|].
    unfold merged. induction H as [|entry rest Hentry _ IH]; [reflexivity|].
    cbn. now rewrite Hentry, <- IH.
  - now rewrite search_all_operators_run.
Qed.

Lemma search_all_operators_empty_witness :
  search_all_operators Scenario.request Scenario.net_tie new
  = (Ok [], new, [])
  /\ adapters (state_of (initialize [Scenario.off] Scenario.net_tie new)) = []
  /\ result_of (search_all_operators Scenario.request Scenario.net_down
                  Scenario.with_base) = Ok [].
Proof.
  split; [|split].
  - apply (search_all_operators_empty
             new Scenario.request Scenario.net_tie []). reflexivity.
  - apply (search_all_operators_empty
             new Scenario.request Scenario.net_tie [Scenario.off]).
    repeat constructor.
  - apply (search_all_operators_empty
             Scenario.with_base Scenario.request Scenario.net_down []).
    repeat constructor.
Defined.

(** ** Bookings *)

Lemma lift_run {St A} (m : M unit A) net (st : St) :
  lift m net st = (result_of (m net tt), st, events_of (m net tt)).
Proof.
  unfold lift, result_of, events_of.
  destruct (m net tt) as [[r []] ev]. reflexivity.
Qed.

(** C10.  [create_booking] of the service always returns a value and never
    touches the service: for an operator code that is not in the adapter map
    the value is the error "Operator <code> not available", with nothing
    logged and no call made; when the adapter's own [create_booking] raises,
    the value is the error that carries the message of the exception. *)
Theorem create_booking_returns_errors :
  forall svc operator_code booking_data net,
    state_of (create_booking operator_code booking_data net svc) = svc
    /\ (exists v,
           result_of (create_booking operator_code booking_data net svc)
           = Ok v)
    /\ (Py.dict_find (adapters svc) operator_code = None ->
        create_booking operator_code booking_data net svc
        = (Ok (error_dict ("Operator " ++ operator_code ++ " not available")),
           svc, []))
    /\ (forall adapter e,
           Py.dict_find (adapters svc) operator_code = Some adapter ->
           result_of (Adapter.create_booking adapter booking_data net tt)
           = Raise e ->
           result_of (create_booking operator_code booking_data net svc)
           = Ok (error_dict (str_exn e))).
Proof.
  intros svc operator_code booking_data net.
  unfold create_booking, bind, get_state.
  destruct (Py.dict_find (adapters svc) operator_code) as [adapter|].
  - unfold try_except. rewrite lift_run.
    destruct (result_of (Adapter.create_booking adapter booking_data net tt))
      as [v|e] eqn:E; cbn.
    + repeat split; eauto; try discriminate.
      intros a e Ha He. inversion Ha; subst. congruence.
    + repeat split; eauto; try discriminate.
      intros a e' Ha He. inversion Ha; subst. congruence.
  - cbn. repeat split; eauto. discriminate.
Qed.

Lemma create_booking_returns_errors_witness :
  create_booking "GNV" VNone Scenario.net_tie Scenario.aaa_and_ctn
  = (Ok (error_dict "Operator GNV not available"), Scenario.aaa_and_ctn, [])
  /\ result_of (create_booking "CTN" VNone Scenario.net_tie
                  Scenario.aaa_and_ctn)
     = Ok (error_dict "").
Proof.
  split.
  - apply (create_booking_returns_errors
             Scenario.aaa_and_ctn "GNV" VNone Scenario.net_tie).
    reflexivity.
  - apply (create_booking_returns_errors
             Scenario.aaa_and_ctn "CTN" VNone Scenario.net_tie)
      with (adapter := CTNDirectAdapter.new Scenario.ctn)
           (e := NotImplementedError);
      reflexivity.
Defined.

(** ** Defaults of the response mappers *)

(** C9.  The CTN mapper does not give 0 to a missing duration or a missing
    count of seats or of vehicle places.  CTN answers a search with one
    sailing that has a route, a fare and a departure time, and nothing else:
    the result that the adapter returns has [None] as duration, as seats and
    as vehicle places.  The aggregator's adapter, given the entry with the
    same fields, returns 0 for the three of them. *)
Theorem CTN_missing_counts_are_not_zero :
  result_of (CTNDirectAdapter.search_routes Scenario.ctn Scenario.request
               Scenario.net_tie tt)
  = Ok [ {| operator_code := VStr "CTN";
            route_id := VStr "R2";
            departure_time := VStr "08:00";
            arrival_time := VNone;
            duration_minutes := VNone;
            available_seats := VNone;
            available_vehicles := VNone;
            base_price := DFin false 80 0;
            currency := VStr "TND";
            booking_reference := VNone;
            amenities := VList [];
            vessel_name := VNone |} ]
  /\ result_of (LykoAggregatorAdapter.search_routes Scenario.aaa
                  Scenario.request Scenario.net_tie tt)
     = Ok [ {| operator_code := VStr "AAA";
               route_id := VStr "R1";
               departure_time := VStr "08:00";
               arrival_time := VNone;
               duration_minutes := VInt 0;
               available_seats := VInt 0;
               available_vehicles := VInt 0;
               base_price := DFin false 80 0;
               currency := VStr "EUR";
               booking_reference := VNone;
               amenities := VList [];
               vessel_name := VStr "" |} ].
Proof. split; vm_compute; reflexivity. Qed.

(** ** What a search sends *)

Lemma calls_app l1 l2 : calls (l1 ++ l2) = (calls l1 ++ calls l2)%list.
Proof. apply flat_map_app. Qed.

Lemma calls_warnings {A B} logger prefix (build : A -> res B) items :
  calls (warnings logger prefix build items) = [].
Proof.
  induction items as [|item rest IH]; [reflexivity|].
  cbn [warnings flat_map]. rewrite calls_app.
  change (flat_map _ rest) with (warnings logger prefix build rest).
  rewrite IH. destruct (build item); reflexivity.
Qed.

Lemma Lyko_search_routes_calls operator request net :
  calls (events_of (LykoAggregatorAdapter.search_routes operator request net tt))
  = [LykoAggregatorAdapter.search_call operator request]
  /\ exists l,
       result_of (LykoAggregatorAdapter.search_routes operator request net tt)
       = Ok l.
Proof.
  rewrite Lyko_search_routes_run. cbv zeta.
  destruct (net _) as [response|e]; [|cbn; eauto].
  destruct (status response =? 200).
  - destruct (json_body response) as [data|e]; [|cbn; eauto].
    destruct (entries "results" data); [|cbn; eauto].
    unfold events_of, result_of. cbn [fst snd].
    change (calls (Call ?c :: ?l)) with (c :: calls l).
    rewrite calls_warnings. eauto.
  - destruct (text_body response); cbn; eauto.
Qed.

Lemma CTN_search_routes_calls operator request net :
  calls (events_of (CTNDirectAdapter.search_routes operator request net tt))
  = [CTNDirectAdapter.search_call operator request]
  /\ exists l,
       result_of (CTNDirectAdapter.search_routes operator request net tt)
       = Ok l.
Proof.
  rewrite CTN_search_routes_run. cbv zeta.
  destruct (net _) as [response|e]; [|cbn; eauto].
  destruct (status response =? 200); [|cbn; eauto].
  destruct (json_body response) as [data|e]; [|cbn; eauto].
  destruct (entries "sailings" data); [|cbn; eauto].
  unfold events_of, result_of. cbn [fst snd].
  change (calls (Call ?c :: ?l)) with (c :: calls l).
  rewrite calls_warnings. eauto.
Qed.

Lemma concrete_calls adapter request net :
  concrete adapter ->
  calls (safe_events adapter request net) = [search_call_of adapter request].
Proof.
  unfold safe_events, searched, search_call_of.
  intros [H|H]; rewrite H;
    cbn [Adapter.search_routes Adapter.class Adapter.operator
         LykoAggregatorAdapter.new CTNDirectAdapter.new];
    rewrite calls_app.
  - destruct (Lyko_search_routes_calls
                (Adapter.operator adapter) request net) as [-> [l ->]].
    reflexivity.
  - destruct (CTN_search_routes_calls
                (Adapter.operator adapter) request net) as [-> [l ->]].
    reflexivity.
Qed.

Lemma search_all_operators_calls svc request net :
  Forall (fun entry => concrete (snd entry)) (adapters svc) ->
  calls (events_of (search_all_operators request net svc))
  = map (fun entry => search_call_of (snd entry) request) (adapters svc).
Proof.
  intros H. rewrite search_all_operators_run. cbn [events_of snd].
  induction H as [|entry rest Hentry _ IH]; [reflexivity|].
  cbn [map List.concat]. rewrite calls_app, IH.
  now rewrite (concrete_calls _ _ _ Hentry).
Qed.

Lemma dict_set_Forall {A} (P : string * A -> Prop) kv k v :
  (forall k', P (k', v)) -> Forall P kv -> Forall P (Py.dict_set kv k v).
Proof.
  intros Hv H. induction H as [|[k' v'] rest Hx Hrest IH]; cbn.
  - constructor; [apply Hv | constructor].
  - destruct (String.eqb k' k); constructor;
      [apply Hv | exact Hrest | exact Hx | exact IH].
Qed.

Lemma initialize_concrete operators net svc :
  Forall (fun entry => concrete (snd entry)) (adapters svc) ->
  Forall (fun entry => concrete (snd entry))
         (adapters (state_of (initialize operators net svc))).
Proof.
  rewrite initialize_run. cbn [state_of fst snd adapters].
  generalize (adapters svc) as start.
  induction (filter is_active operators) as [|operator rest IH];
    intros start Hstart; [exact Hstart|].
  cbn [registered fold_left]. apply IH.
  unfold construct_selected. apply dict_set_Forall; [|assumption].
  intros k'. cbn [snd]. unfold concrete.
  destruct (selected_class operator); auto.
Qed.

Lemma await_health_state tasks :
  forall results net svc,
    state_of (await_health tasks results net svc) = svc.
Proof.
  induction tasks as [|[operator_code task] rest IH]; intros results net svc;
    [reflexivity|].
  cbn [await_health]. unfold bind at 1, try_except, bind.
  rewrite lift_run.
  destruct (result_of (task net tt)); cbn;
    match goal with
    | |- context [await_health rest ?r net svc] =>
        specialize (IH r net svc); unfold state_of in *;
        destruct (await_health rest r net svc) as [[x st] ev]; exact IH
    end.
Qed.

(** C6, as the code has it.  [search_all_operators] runs the search of
    every adapter in the adapter map, in the order of the map, and consults
    no health status: for a service built by [initialize], what it sends is
    one search call per adapter, whatever the network answers to health
    probes.  [health_check_all] returns its map and records nothing in the
    service, and the value that a search returns marks no operator as
    skipped. *)
Theorem search_all_operators_ignores_health :
  forall svc request net,
    Forall (fun entry => concrete (snd entry)) (adapters svc) ->
    events_of (search_all_operators request net svc)
    = List.concat (map (fun entry => safe_events (snd entry) request net)
                       (adapters svc))
    /\ calls (events_of (search_all_operators request net svc))
       = map (fun entry => search_call_of (snd entry) request) (adapters svc)
    /\ state_of (health_check_all net svc) = svc
    /\ forall operators net0,
         Forall (fun entry => concrete (snd entry))
                (adapters (state_of (initialize operators net0 svc))).
Proof.
  intros svc request net H. repeat split.
  - now rewrite search_all_operators_run.
  - now apply search_all_operators_calls.
  - unfold health_check_all, bind, get_state.
    pose proof (await_health_state
                  (map (fun entry =>
                          (fst entry, Adapter.health_check (snd entry)))
                       (adapters svc)) [] net svc) as Hs.
    unfold state_of in *.
    destruct (await_health _ [] net svc) as [[r st] ev]. exact Hs.
  - intros operators net0. now apply initialize_concrete.
Qed.

Lemma search_all_operators_ignores_health_witness :
  calls (events_of (search_all_operators Scenario.request
                      Scenario.net_unhealthy Scenario.aaa_and_ctn))
  = [LykoAggregatorAdapter.search_call Scenario.aaa Scenario.request;
     CTNDirectAdapter.search_call Scenario.ctn Scenario.request]
  /\ state_of (health_check_all Scenario.net_unhealthy Scenario.aaa_and_ctn)
     = Scenario.aaa_and_ctn.
Proof.
  destruct (search_all_operators_ignores_health
              Scenario.aaa_and_ctn Scenario.request Scenario.net_unhealthy)
    as (_ & Hcalls & Hstate & _).
  - constructor; [left; reflexivity|].
    constructor; [right; reflexivity | constructor].
  - split; [exact Hcalls | exact Hstate].
Defined.

(** C6, as stated, fails: both operators are reported unhealthy, and the
    search is sent to the first of them all the same. *)
Lemma unhealthy_adapter_is_searched :
  ~ skips_unhealthy Scenario.aaa_and_ctn Scenario.request
      Scenario.net_unhealthy.
Proof.
  intros H.
  apply (H [("AAA", false); ("CTN", false)] "AAA"
           (LykoAggregatorAdapter.new Scenario.aaa)).
  - vm_compute. reflexivity.
  - left. reflexivity.
  - reflexivity.
  - vm_compute. left. reflexivity.
Qed.

(** C7, as the code has it.  Every search call carries a total timeout of
    30 seconds, whatever timeout the operator is configured with: each call
    that [search_all_operators] sends is the search call of one adapter of
    the map, and that call has the fixed timeout.  (How long a call takes is
    not part of the model.) *)
Theorem search_calls_have_fixed_timeout :
  forall svc request net rq,
    Forall (fun entry => concrete (snd entry)) (adapters svc) ->
    In rq (calls (events_of (search_all_operators request net svc))) ->
    timeout_total rq = 30
    /\ exists entry,
         In entry (adapters svc) /\ rq = search_call_of (snd entry) request.
Proof.
  intros svc request net rq H Hin.
  rewrite (search_all_operators_calls svc request net H) in Hin.
  apply in_map_iff in Hin. destruct Hin as (entry & <- & Hentry).
  split; [|eauto].
  unfold search_call_of. destruct (Adapter.class (snd entry)); reflexivity.
Qed.

Lemma search_calls_have_fixed_timeout_witness :
  timeout_total (LykoAggregatorAdapter.search_call Scenario.aaa
                   Scenario.request) = 30
  /\ exists entry,
       In entry (adapters Scenario.aaa_and_ctn)
       /\ LykoAggregatorAdapter.search_call Scenario.aaa Scenario.request
          = search_call_of (snd entry) Scenario.request.
Proof.
  apply (search_calls_have_fixed_timeout
           Scenario.aaa_and_ctn Scenario.request Scenario.net_tie).
  - constructor; [left; reflexivity|].
    constructor; [right; reflexivity | constructor].
  - vm_compute. left. reflexivity.
Defined.

(** C7, as stated, fails: the operator AAA is configured with a timeout of
    5 seconds, and its search call is sent with a timeout of 30. *)
Lemma search_timeout_is_not_the_configured_one :
  In (search_call_of (LykoAggregatorAdapter.new Scenario.aaa) Scenario.request)
     (calls (events_of (search_all_operators Scenario.request Scenario.net_tie
                          Scenario.aaa_and_ctn)))
  /\ ~ bounded_by_configured_timeout (LykoAggregatorAdapter.new Scenario.aaa)
         Scenario.request.
Proof.
  split.
  - vm_compute. left. reflexivity.
  - unfold bounded_by_configured_timeout. cbn. discriminate.
Qed.

(** * Further properties of the service *)

(** ** Bookings and probes of the adapters *)

Lemma Lyko_create_booking_run operator booking_data net :
  exists v logs,
    LykoAggregatorAdapter.create_booking operator booking_data net tt
    = (Ok v, tt, logs).
Proof.
  unfold LykoAggregatorAdapter.create_booking, try_except.
  unfold bind at 1. unfold send.
  destruct (net _) as [response|e]; [|cbn; eauto].
  destruct ((status response =? 200) || (status response =? 201)).
  - unfold of_res. destruct (json_body response); cbn; eauto.
  - unfold bind, of_res. destruct (text_body response); cbn; eauto.
Qed.

(** X1.  [create_booking] of the Lyko adapter never raises and sends exactly
    one call, a POST of the booking data with a timeout of 60 seconds.  A
    reply with status 200 or 201 gives the body of the reply; any other
    status gives the error "Booking failed: <text>" and one error record;
    a failed transport or an unreadable body gives the error that carries
    the message of the exception and one error record. *)
Theorem Lyko_create_booking_outcomes :
  forall operator booking_data net,
    let call := LykoAggregatorAdapter.booking_call operator booking_data in
    exists v logs,
      LykoAggregatorAdapter.create_booking operator booking_data net tt
      = (Ok v, tt, Call call :: logs)
      /\ calls logs = []
      /\ json_payload call = Some booking_data
      /\ timeout_total call = 60
      /\ match net call with
         | Raise e =>
             v = error_dict (str_exn e) /\ List.length logs = 1%nat
         | Ok response =>
             if (status response =? 200) || (status response =? 201) then
               match json_body response with
               | Ok body => v = body /\ logs = []
               | Raise e =>
                   v = error_dict (str_exn e) /\ List.length logs = 1%nat
               end
             else
               match text_body response with
               | Ok text =>
                   v = error_dict ("Booking failed: " ++ text)
                   /\ List.length logs = 1%nat
               | Raise e =>
                   v = error_dict (str_exn e) /\ List.length logs = 1%nat
               end
         end.
Proof.
  intros operator booking_data net call.
  unfold LykoAggregatorAdapter.create_booking, try_except.
  unfold bind at 1. unfold send. fold call.
  destruct (net call) as [response|e].
  - destruct ((status response =? 200) || (status response =? 201)).
    + unfold of_res. destruct (json_body response) as [body|e];
        eexists; eexists; cbn; repeat split.
    + unfold bind, of_res. destruct (text_body response) as [text|e];
        eexists; eexists; cbn; repeat split.
  - eexists; eexists; cbn; repeat split.
Qed.

(** X2.  The health probes of both adapters never raise and send exactly one
    GET with a timeout of 10 seconds and no body.  The answer is [True]
    exactly when the call returned with status 200; a status other than 200
    is not logged, a failed transport is logged once. *)
Theorem health_check_outcomes :
  forall operator net,
    (let call := LykoAggregatorAdapter.health_call operator in
     exists b logs,
       LykoAggregatorAdapter.health_check operator net tt
       = (Ok b, tt, Call call :: logs)
       /\ timeout_total call = 10 /\ json_payload call = None
       /\ (b = true <-> exists response,
                          net call = Ok response /\ status response = 200)
       /\ match net call with
          | Ok _ => logs = []
          | Raise e =>
              logs = [Log ERROR (adapter_logger operator)
                          ("Health check failed: " ++ str_exn e)]
          end)
    /\ (let call := CTNDirectAdapter.health_call operator in
        exists b logs,
          CTNDirectAdapter.health_check operator net tt
          = (Ok b, tt, Call call :: logs)
          /\ timeout_total call = 10 /\ json_payload call = None
          /\ (b = true <-> exists response,
                             net call = Ok response /\ status response = 200)
          /\ match net call with
             | Ok _ => logs = []
             | Raise e =>
                 logs = [Log ERROR (adapter_logger operator)
                             ("CTN health check failed: " ++ str_exn e)]
             end).
Proof.
  intros operator net. split; intros call;
    [unfold LykoAggregatorAdapter.health_check
    |unfold CTNDirectAdapter.health_check];
    unfold try_except, bind, send, ret; fold call;
    (destruct (net call) as [response|e]; eexists; eexists; cbn;
     (split; [reflexivity|]); (split; [reflexivity|]);
     (split; [reflexivity|]); (split; [|reflexivity]); split).
  - intros H. exists response. split; [reflexivity|]. now apply Z.eqb_eq.
  - intros (r & Hr & Hs). inversion Hr; subst. now apply Z.eqb_eq.
  - discriminate.
  - intros (r & Hr & _). discriminate.
  - intros H. exists response. split; [reflexivity|]. now apply Z.eqb_eq.
  - intros (r & Hr & Hs). inversion Hr; subst. now apply Z.eqb_eq.
  - discriminate.
  - intros (r & Hr & _). discriminate.
Qed.

(** ** Probing every adapter *)

Lemma dict_find_set {A} (kv : list (string * A)) k v k' :
  Py.dict_find (Py.dict_set kv k v) k'
  = if String.eqb k k' then Some v else Py.dict_find kv k'.
Proof.
  induction kv as [|[k0 v0] rest IH]; cbn.
  - reflexivity.
  - destruct (String.eqb_spec k0 k) as [->|Hne]; cbn.
    + destruct (String.eqb k k'); reflexivity.
    + rewrite IH. destruct (String.eqb_spec k0 k') as [->|Hne'].
      * destruct (String.eqb_spec k k'); [congruence | reflexivity].
      * reflexivity.
Qed.

Lemma dict_set_fresh {A} (kv : list (string * A)) k v :
  ~ In k (map fst kv) -> Py.dict_set kv k v = (kv ++ [(k, v)])%list.
Proof.
  induction kv as [|[k0 v0] rest IH]; cbn; intros H; [reflexivity|].
  destruct (String.eqb_spec k0 k) as [->|Hne].
  - exfalso. apply H. now left.
  - rewrite IH; [reflexivity|]. intros Hin. apply H. now right.
Qed.

Lemma dict_set_keys {A} (kv : list (string * A)) k v :
  In k (map fst kv) -> map fst (Py.dict_set kv k v) = map fst kv.
Proof.
  induction kv as [|[k0 v0] rest IH]; cbn; intros H; [contradiction|].
  destruct (String.eqb_spec k0 k) as [->|Hne]; cbn; [reflexivity|].
  rewrite IH; [reflexivity|]. destruct H; [contradiction | assumption].
Qed.

Lemma await_health_run (entries : list (string * Adapter.t)) :
  forall results net svc,
    NoDup (map fst results ++ map fst entries) ->
    await_health
      (map (fun entry => (fst entry, Adapter.health_check (snd entry)))
           entries)
      results net svc
    = (Ok (results
           ++ map (fun entry => (fst entry, healthy (snd entry) net)) entries)%list,
       svc,
       List.concat
         (map (fun entry => health_events (fst entry) (snd entry) net)
              entries)).
Proof.
  induction entries as [|[k adapter] rest IH]; intros results net svc Hnd.
  - cbn. unfold ret. now rewrite app_nil_r.
  - cbn [map await_health fst snd List.concat].
    assert (Hfresh : ~ In k (map fst results)).
    { cbn in Hnd. apply NoDup_remove_2 in Hnd.
      intros Hin. apply Hnd. apply in_or_app. now left. }
    assert (Hnd' : NoDup (map fst (results ++ [(k, healthy adapter net)])
                          ++ map fst rest)).
    { rewrite map_app, <- app_assoc. exact Hnd. }
    unfold bind at 1. unfold try_except, bind. rewrite lift_run.
    unfold healthy, health_events in *.
    destruct (result_of (Adapter.health_check adapter net tt)) as [b|e];
      cbn; rewrite dict_set_fresh by assumption;
      rewrite (IH _ net svc Hnd'); cbn;
      rewrite <- !app_assoc; reflexivity.
Qed.

Lemma await_health_ok tasks :
  forall results net svc,
    exists report, result_of (await_health tasks results net svc) = Ok report.
Proof.
  induction tasks as [|[k task] rest IH]; intros results net svc.
  - cbn. eauto.
  - cbn [await_health]. unfold bind at 1. unfold try_except, bind.
    rewrite lift_run.
    destruct (result_of (task net tt)); cbn;
      match goal with
      | |- context [await_health rest ?r net svc] =>
          destruct (IH r net svc) as [report Hr]; unfold result_of in *;
          destruct (await_health rest r net svc) as [[x st] ev];
          exists report; exact Hr
      end.
Qed.

(** X3.  [health_check_all] never raises.  On an adapter map with distinct
    keys it reports every operator once, in the order of the map; the report
    of an adapter is the answer of its probe, and [False] when the probe
    raised, in which case one error record names the operator. *)
Theorem health_check_all_reports_every_adapter :
  forall svc net,
    (exists report, result_of (health_check_all net svc) = Ok report)
    /\ (NoDup (map fst (adapters svc)) ->
        health_check_all net svc
        = (Ok (map (fun entry => (fst entry, healthy (snd entry) net))
                   (adapters svc)),
           svc,
           List.concat
             (map (fun entry => health_events (fst entry) (snd entry) net)
                  (adapters svc)))).
Proof.
  intros svc net. split.
  - unfold health_check_all, bind, get_state.
    destruct (await_health_ok
                (map (fun entry =>
                        (fst entry, Adapter.health_check (snd entry)))
                     (adapters svc)) [] net svc) as [report Hr].
    unfold result_of in *.
    destruct (await_health _ [] net svc) as [[x st] ev].
    exists report. exact Hr.
  - intros H. unfold health_check_all, bind, get_state.
    rewrite await_health_run by exact H. reflexivity.
Qed.

Lemma health_check_all_reports_every_adapter_witness :
  result_of (health_check_all Cases.net_mixed Scenario.with_base)
  = Ok [("AAA", true); ("ZZZ", false)]
  /\ result_of (health_check_all Cases.net_mixed Scenario.aaa_and_ctn)
     = Ok [("AAA", true); ("CTN", false)].
Proof.
  split.
  - rewrite (proj2 (health_check_all_reports_every_adapter
                      Scenario.with_base Cases.net_mixed)); [reflexivity|].
    repeat constructor; cbn; intuition discriminate.
  - rewrite (proj2 (health_check_all_reports_every_adapter
                      Scenario.aaa_and_ctn Cases.net_mixed)); [reflexivity|].
    repeat constructor; cbn; intuition discriminate.
Defined.

(** ** Closing the service *)

(** X4.  [close] never raises, empties the adapter map and marks an open
    session as closed.  On the closed service a search returns the empty
    list, a booking returns the error "Operator <code> not available" and
    the health report is empty, each without a call or a log record. *)
Theorem close_empties_the_service :
  forall svc net request operator_code booking_data,
    let closed := state_of (close net svc) in
    result_of (close net svc) = Ok tt
    /\ adapters closed = []
    /\ session closed
       = match session svc with
         | NoSession => NoSession
         | _ => ClosedSession
         end
    /\ search_all_operators request net closed = (Ok [], closed, [])
    /\ create_booking operator_code booking_data net closed
       = (Ok (error_dict ("Operator " ++ operator_code ++ " not available")),
          closed, [])
    /\ health_check_all net closed = (Ok [], closed, []).
Proof.
  intros svc net request operator_code booking_data closed.
  repeat split.
Qed.

(** ** The adapter map after registration *)

Lemma find_app {A} (f : A -> bool) l1 l2 :
  find f (l1 ++ l2)
  = match find f l1 with Some x => Some x | None => find f l2 end.
Proof.
  induction l1 as [|x l1 IH]; cbn; [reflexivity|].
  destruct (f x); [reflexivity | exact IH].
Qed.

Lemma find_ext {A} (f g : A -> bool) l :
  (forall x, f x = g x) -> find f l = find g l.
Proof.
  intros H. induction l as [|x l IH]; cbn; [reflexivity|].
  now rewrite H, IH.
Qed.

Lemma find_filter {A} (f g : A -> bool) l :
  find g (filter f l) = find (fun x => f x && g x) l.
Proof.
  induction l as [|x l IH]; cbn; [reflexivity|].
  destruct (f x); cbn; [destruct (g x); [reflexivity | exact IH] | exact IH].
Qed.

Lemma filter_rev_comm {A} (f : A -> bool) l :
  filter f (rev l) = rev (filter f l).
Proof.
  induction l as [|x l IH]; cbn; [reflexivity|].
  rewrite filter_app, IH. cbn. destruct (f x); cbn;
    [reflexivity | now rewrite app_nil_r].
Qed.

Lemma registered_find construct operators :
  forall start c,
    Py.dict_find (registered construct operators start) c
    = match find (fun operator =>
                    String.eqb (code operator) c && is_ok (construct operator))
                 (rev operators) with
      | Some operator =>
          match construct operator with
          | Ok adapter => Some adapter
          | Raise _ => None
          end
      | None => Py.dict_find start c
      end.
Proof.
  unfold registered.
  induction operators as [|operator rest IH]; intros start c;
    [reflexivity|].
  cbn [fold_left rev]. rewrite IH, find_app.
  destruct (find _ (rev rest)) as [found|]; [reflexivity|].
  cbn [find]. destruct (construct operator) as [adapter|e] eqn:E; cbn.
  - rewrite dict_find_set, andb_true_r.
    destruct (String.eqb (code operator) c); [now rewrite E | reflexivity].
  - now rewrite andb_false_r.
Qed.

(** X5.  After [initialize], the adapter found under a code is the one built
    from the last active operator of the list that has this code; a code
    that no active operator of the list has keeps the adapter it had
    before, if any: [initialize] replaces and adds adapters and never
    removes one, also not for an operator that is now inactive. *)
Theorem initialize_lookup :
  forall operators net svc c,
    Py.dict_find (adapters (state_of (initialize operators net svc))) c
    = match last_active operators c with
      | Some operator =>
          match construct_selected operator with
          | Ok adapter => Some adapter
          | Raise _ => None
          end
      | None => Py.dict_find (adapters svc) c
      end.
Proof.
  intros operators net svc c.
  rewrite initialize_run. cbn [state_of fst snd adapters].
  rewrite registered_find. unfold last_active.
  rewrite <- filter_rev_comm, find_filter.
  rewrite (find_ext _
             (fun operator =>
                is_active operator && String.eqb (code operator) c)
             (rev operators)); [reflexivity|].
  intros operator. unfold construct_selected. cbn [is_ok].
  now rewrite andb_true_r.
Qed.

Lemma initialize_lookup_witness :
  Py.dict_find
    (adapters (state_of (initialize [Cases.aaa_rekeyed; Cases.aaa_off]
                           Scenario.net_down Scenario.aaa_and_ctn)))
    "AAA"
  = Some (LykoAggregatorAdapter.new Cases.aaa_rekeyed)
  /\ Py.dict_find
       (adapters (state_of (initialize [Cases.aaa_off] Scenario.net_down
                              Scenario.aaa_and_ctn)))
       "AAA"
     = Some (LykoAggregatorAdapter.new Scenario.aaa).
Proof.
  split.
  - exact (initialize_lookup [Cases.aaa_rekeyed; Cases.aaa_off]
             Scenario.net_down Scenario.aaa_and_ctn "AAA").
  - exact (initialize_lookup [Cases.aaa_off]
             Scenario.net_down Scenario.aaa_and_ctn "AAA").
Defined.

Lemma dict_set_keys_cases {A} (kv : list (string * A)) k v :
  map fst (Py.dict_set kv k v)
  = if in_dec string_dec k (map fst kv)
    then map fst kv
    else (map fst kv ++ [k])%list.
Proof.
  destruct (in_dec string_dec k (map fst kv)) as [Hin|Hout].
  - now apply dict_set_keys.
  - rewrite dict_set_fresh by assumption. now rewrite map_app.
Qed.

Lemma dict_set_NoDup {A} (kv : list (string * A)) k v :
  NoDup (map fst kv) -> NoDup (map fst (Py.dict_set kv k v)).
Proof.
  intros H. rewrite dict_set_keys_cases.
  destruct (in_dec string_dec k (map fst kv)) as [Hin|Hout]; [exact H|].
  apply NoDup_app; [exact H | repeat constructor; intros [] |].
  intros x Hx [<-|[]]. contradiction.
Qed.

Lemma dict_set_Forall_at {A} (P : string * A -> Prop) kv k v :
  P (k, v) -> Forall P kv -> Forall P (Py.dict_set kv k v).
Proof.
  intros Hv H. induction H as [|[k' v'] rest Hx Hrest IH]; cbn.
  - constructor; [exact Hv | constructor].
  - destruct (String.eqb k' k); constructor;
      [exact Hv | exact Hrest | exact Hx | exact IH].
Qed.

Lemma construct_selected_operator operator adapter :
  construct_selected operator = Ok adapter ->
  Adapter.operator adapter = operator.
Proof.
  unfold construct_selected. intros H. inversion H; subst.
  destruct (selected_class operator); reflexivity.
Qed.

(** X6.  [initialize] keeps the adapter map well formed: keys stay distinct,
    every adapter stays filed under the code of its own operator, and the
    keys that were there before keep their places, the new ones following
    them. *)
Theorem initialize_keeps_the_map_keyed :
  forall operators net svc,
    NoDup (map fst (adapters svc)) ->
    keyed_by_code (adapters svc) ->
    NoDup (map fst (adapters (state_of (initialize operators net svc))))
    /\ keyed_by_code (adapters (state_of (initialize operators net svc)))
    /\ exists added,
         map fst (adapters (state_of (initialize operators net svc)))
         = (map fst (adapters svc) ++ added)%list.
Proof.
  intros operators net svc. rewrite initialize_run.
  cbn [state_of fst snd adapters]. unfold registered.
  generalize (adapters svc) as start.
  induction (filter is_active operators) as [|operator rest IH];
    intros start Hnd Hkey.
  - cbn. repeat split; auto. exists []. now rewrite app_nil_r.
  - cbn [fold_left].
    destruct (construct_selected operator) as [adapter|e] eqn:E;
      [|discriminate E].
    destruct (IH (Py.dict_set start (code operator) adapter))
      as (Hnd' & Hkey' & added & Hadded).
    + now apply dict_set_NoDup.
    + apply dict_set_Forall_at; [|exact Hkey]. cbn [fst snd].
      now rewrite (construct_selected_operator operator adapter E).
    + split; [exact Hnd'|]. split; [exact Hkey'|].
      rewrite Hadded, dict_set_keys_cases.
      destruct (in_dec string_dec (code operator) (map fst start)).
      * now exists added.
      * exists (code operator :: added). now rewrite <- app_assoc.
Qed.

Lemma initialize_keeps_the_map_keyed_witness :
  NoDup (map fst (adapters
                    (state_of (initialize [Scenario.zzz; Cases.aaa_rekeyed]
                                 Scenario.net_down Scenario.aaa_and_ctn))))
  /\ keyed_by_code
       (adapters (state_of (initialize [Scenario.zzz; Cases.aaa_rekeyed]
                              Scenario.net_down Scenario.aaa_and_ctn)))
  /\ exists added,
       map fst (adapters
                  (state_of (initialize [Scenario.zzz; Cases.aaa_rekeyed]
                               Scenario.net_down Scenario.aaa_and_ctn)))
       = (["AAA"; "CTN"] ++ added)%list.
Proof.
  apply (initialize_keeps_the_map_keyed
           [Scenario.zzz; Cases.aaa_rekeyed] Scenario.net_down
           Scenario.aaa_and_ctn).
  - repeat constructor; cbn; intuition discriminate.
  - repeat constructor.
Defined.

(** ** Bookings through the service *)

(** X10.  A booking for an operator served by the CTN adapter is never
    sent: the adapter has no [create_booking] of its own, so the service
    returns the error with an empty message, logs one error record and makes
    no call.  A booking for an operator served by the Lyko adapter is the
    adapter's own booking: the service adds no record and no call to
    it. *)
Theorem create_booking_by_adapter_class :
  forall svc operator_code operator booking_data net,
    (Py.dict_find (adapters svc) operator_code
     = Some (CTNDirectAdapter.new operator) ->
     create_booking operator_code booking_data net svc
     = (Ok (error_dict ""), svc,
        [Log ERROR logger
             ("Booking creation failed for " ++ operator_code ++ ": ")]))
    /\ (Py.dict_find (adapters svc) operator_code
        = Some (LykoAggregatorAdapter.new operator) ->
        create_booking operator_code booking_data net svc
        = (result_of
             (LykoAggregatorAdapter.create_booking operator booking_data
                net tt),
           svc,
           events_of
             (LykoAggregatorAdapter.create_booking operator booking_data
                net tt))
        /\ exists v,
             result_of (create_booking operator_code booking_data net svc)
             = Ok v).
Proof.
  intros svc operator_code operator booking_data net.
  unfold create_booking, bind, get_state. split; intros ->.
  - unfold try_except. rewrite lift_run. reflexivity.
  - unfold try_except. rewrite lift_run.
    cbn [Adapter.create_booking LykoAggregatorAdapter.new].
    destruct (Lyko_create_booking_run operator booking_data net)
      as (v & logs & ->).
    cbn. split; eauto.
Qed.

Lemma create_booking_by_adapter_class_witness :
  create_booking "CTN" (VDict [("passengers", VInt 2)]) Cases.net_booked
    Scenario.aaa_and_ctn
  = (Ok (error_dict ""), Scenario.aaa_and_ctn,
     [Log ERROR logger "Booking creation failed for CTN: "])
  /\ result_of (create_booking "AAA" (VDict [("passengers", VInt 2)])
                  Cases.net_booked Scenario.aaa_and_ctn)
     = Ok (VDict [("booking_reference", VStr "LK-1")]).
Proof.
  split.
  - apply (create_booking_by_adapter_class
             Scenario.aaa_and_ctn "CTN" Scenario.ctn).
    reflexivity.
  - destruct (create_booking_by_adapter_class
                Scenario.aaa_and_ctn "AAA" Scenario.aaa
                (VDict [("passengers", VInt 2)]) Cases.net_booked)
      as [_ H].
    destruct (H eq_refl) as [-> _]. reflexivity.
Defined.

(** ** What a search depends on *)

Lemma concrete_searched adapter request net1 net2 :
  concrete adapter ->
  net1 (search_call_of adapter request) = net2 (search_call_of adapter request) ->
  searched adapter request net1 = searched adapter request net2.
Proof.
  unfold searched, search_call_of.
  intros [H|H]; rewrite H;
    cbn [Adapter.search_routes Adapter.class Adapter.operator
         LykoAggregatorAdapter.new CTNDirectAdapter.new]; intros Hnet.
  - rewrite !Lyko_search_routes_run. cbv zeta. now rewrite Hnet.
  - rewrite !CTN_search_routes_run. cbv zeta. now rewrite Hnet.
Qed.

(** X7.  For adapters of the two concrete classes, a search depends on the
    network only through the replies to the adapters' own search calls: two
    networks that answer those calls alike give the same result, the same
    log and the same calls, whatever else they answer differently (health
    probes, bookings, other operators). *)
Theorem search_depends_on_search_replies :
  forall svc request net1 net2,
    Forall (fun entry => concrete (snd entry)) (adapters svc) ->
    Forall (fun entry =>
              net1 (search_call_of (snd entry) request)
              = net2 (search_call_of (snd entry) request))
           (adapters svc) ->
    search_all_operators request net1 svc
    = search_all_operators request net2 svc.
Proof.
  intros svc request net1 net2 Hc Hn.
  rewrite !search_all_operators_run. unfold merged.
  assert (Hr : map (fun entry => safe_results (snd entry) request net1)
                   (adapters svc)
               = map (fun entry => safe_results (snd entry) request net2)
                   (adapters svc)).
  { apply map_ext_in. intros entry Hin. unfold safe_results.
    rewrite Forall_forall in Hc, Hn.
    now rewrite (concrete_searched _ request net1 net2 (Hc _ Hin) (Hn _ Hin)). }
  assert (He : map (fun entry => safe_events (snd entry) request net1)
                   (adapters svc)
               = map (fun entry => safe_events (snd entry) request net2)
                   (adapters svc)).
  { apply map_ext_in. intros entry Hin. unfold safe_events.
    rewrite Forall_forall in Hc, Hn.
    now rewrite (concrete_searched _ request net1 net2 (Hc _ Hin) (Hn _ Hin)). }
  now rewrite Hr, He.
Qed.

Lemma search_depends_on_search_replies_witness :
  search_all_operators Scenario.request Scenario.net_unhealthy
    Scenario.aaa_and_ctn
  = search_all_operators Scenario.request Scenario.net_tie
      Scenario.aaa_and_ctn.
Proof.
  apply (search_depends_on_search_replies
           Scenario.aaa_and_ctn Scenario.request
           Scenario.net_unhealthy Scenario.net_tie).
  - constructor; [left; reflexivity|].
    constructor; [right; reflexivity | constructor].
  - repeat constructor.
Defined.

(** ** What the CTN adapter returns and where it calls *)

Lemma kept_Forall {A B} (build : A -> res B) (P : B -> Prop) items :
  (forall item r, build item = Ok r -> P r) -> Forall P (kept build items).
Proof.
  intros H. induction items as [|item rest IH]; cbn; [constructor|].
  destruct (build item) as [r|e] eqn:E; cbn; [|exact IH].
  constructor; [now apply (H item) | exact IH].
Qed.

(** X9.  Whatever the operator replies, every result of a CTN search carries
    the operator code "CTN" and no booking reference: an "operator_code" or
    a "booking_reference" in a sailing is not read. *)
Theorem CTN_results_are_stamped :
  forall operator request net,
    Forall (fun r => operator_code r = VStr "CTN"
                     /\ booking_reference r = VNone)
           (results_of (CTNDirectAdapter.search_routes operator request net tt)).
Proof.
  intros operator request net. unfold results_of.
  rewrite CTN_search_routes_run. cbv zeta.
  destruct (net _) as [response|e]; [|constructor].
  destruct (status response =? 200); [|constructor].
  destruct (json_body response) as [data|e]; [|constructor].
  destruct (entries "sailings" data) as [items|e]; [|constructor].
  cbn [result_of fst]. apply kept_Forall.
  intros [| | | | | |kv] r; try discriminate.
  rewrite CTN_build_result_dict.
  destruct (Py.Decimal_of_str _); [|discriminate].
  intros H. inversion H; subst. split; reflexivity.
Qed.

(** X12.  An adapter that the service constructs for the direct class calls
    the endpoint configured for its operator, which is then present and not
    empty: the built-in CTN address is never used by such an adapter.  An
    adapter of the aggregator class always calls the aggregator, whatever
    endpoint its operator is configured with. *)
Theorem constructed_adapters_call :
  forall operator adapter request,
    construct_selected operator = Ok adapter ->
    (Adapter.class adapter = CTNDirectAdapterClass ->
     exists endpoint,
       api_endpoint operator = Some endpoint
       /\ endpoint <> ""
       /\ url (search_call_of adapter request) = endpoint ++ "/search"
       /\ Adapter.base_url adapter = Some endpoint)
    /\ (Adapter.class adapter = LykoAggregatorAdapterClass ->
        url (search_call_of adapter request)
        = "https://api.lyko.tech/v1/search")
    /\ Adapter.class adapter <> BaseFerryOperatorAdapterClass.
Proof.
  intros operator adapter request. unfold construct_selected, selected_class.
  destruct (String.eqb (integration_status operator) "lyko");
    [|destruct (String.eqb_spec (code operator) "CTN") as [C|C];
      [unfold truthy; destruct (api_endpoint operator) as [endpoint|] eqn:Ep;
       [destruct (String.eqb_spec endpoint "") as [N|N]|]|]];
    cbn [andb negb]; intros H; inversion H; subst; clear H;
    (split; [|split]); try discriminate; try reflexivity.
  intros _. exists endpoint. unfold search_call_of.
  cbn [Adapter.class Adapter.operator Adapter.base_url CTNDirectAdapter.new
       CTNDirectAdapter.search_call url].
  unfold CTNDirectAdapter.base_url. rewrite Ep.
  destruct (String.eqb_spec endpoint ""); [contradiction|].
  repeat split; auto.
Qed.

Lemma constructed_adapters_call_witness :
  exists endpoint,
    api_endpoint Scenario.ctn = Some endpoint
    /\ endpoint <> ""
    /\ url (search_call_of (CTNDirectAdapter.new Scenario.ctn)
              Scenario.request)
       = endpoint ++ "/search"
    /\ Adapter.base_url (CTNDirectAdapter.new Scenario.ctn) = Some endpoint.
Proof.
  apply (constructed_adapters_call
           Scenario.ctn (CTNDirectAdapter.new Scenario.ctn) Scenario.request);
    reflexivity.
Defined.

(** ** A price that is not a number *)

Lemma key_lt_nan x y :
  is_nan (base_price x) = true \/ is_nan (base_price y) = true ->
  exists e, key_lt x y = Raise e.
Proof.
  unfold key_lt, tuple_lt, sort_key, Decimal_eq, Decimal_lt. cbn [fst snd].
  intros H.
  destruct (is_snan (base_price x) || is_snan (base_price y));
    [cbn; eauto|].
  assert (Hn : is_nan (base_price x) || is_nan (base_price y) = true)
    by (destruct H as [-> | ->]; [reflexivity | apply orb_true_r]).
  rewrite Hn. cbn. eauto.
Qed.

Lemma insert_Forall {A} (lt : A -> A -> res bool) (P : A -> Prop) x :
  forall sorted out,
    insert lt x sorted = Ok out -> P x -> Forall P sorted ->
    Forall P out /\ List.length out = S (List.length sorted).
Proof.
  induction sorted as [|y ys IH]; intros out Hout Px Hs.
  - cbn in Hout. inversion Hout; subst. split; [auto | reflexivity].
  - cbn [insert] in Hout. destruct (lt x y) as [[|]|e]; cbn in Hout;
      try discriminate.
    + inversion Hout; subst. split; [auto | reflexivity].
    + destruct (insert lt x ys) as [r|e] eqn:E; cbn in Hout;
        [|discriminate].
      inversion Hout; subst. inversion Hs; subst.
      destruct (IH r eq_refl Px) as [Hr Hlen]; [assumption|].
      split; [auto | cbn; now rewrite Hlen].
Qed.

Lemma sort_from_nan todo :
  forall sorted,
    (exists x, In x (sorted ++ todo) /\ is_nan (base_price x) = true) ->
    (2 <= List.length (sorted ++ todo))%nat ->
    Forall (fun y => is_nan (base_price y) = false) sorted
    \/ (exists y, sorted = [y]) ->
    exists e, sort_from key_lt sorted todo = Raise e.
Proof.
  induction todo as [|x rest IH]; intros sorted (z & Hz & Hnan) Hlen Hstate.
  - rewrite app_nil_r in *. destruct Hstate as [Hfree|[y ->]].
    + rewrite Forall_forall in Hfree. rewrite (Hfree z Hz) in Hnan.
      discriminate.
    + cbn in Hlen. lia.
  - cbn [sort_from].
    destruct Hstate as [Hfree|[y ->]].
    + destruct (is_nan (base_price x)) eqn:Hx.
      * destruct sorted as [|y ys].
        -- cbn [insert res_bind]. apply IH.
           ++ exists x. split; [now left | assumption].
           ++ exact Hlen.
           ++ right. now exists x.
        -- cbn [insert].
           destruct (key_lt_nan x y (or_introl Hx)) as [e ->]. cbn. eauto.
      * destruct (insert key_lt x sorted) as [s|e] eqn:E; [|cbn; eauto].
        cbn [res_bind].
        destruct (insert_Forall key_lt
                    (fun y => is_nan (base_price y) = false)
                    x sorted s E Hx Hfree) as [Hs Hslen].
        apply IH.
        -- exists z. split; [|assumption].
           apply in_or_app. apply in_app_or in Hz.
           destruct Hz as [Hz|[Hz|Hz]].
           ++ rewrite Forall_forall in Hfree. rewrite (Hfree z Hz) in Hnan.
              discriminate.
           ++ subst z. rewrite Hx in Hnan. discriminate.
           ++ now right.
        -- rewrite length_app in *. cbn in Hlen. lia.
        -- now left.
    + destruct (is_nan (base_price y)) eqn:Hy.
      * cbn [insert].
        destruct (key_lt_nan x y (or_intror Hy)) as [e ->]. cbn. eauto.
      * destruct (is_nan (base_price x)) eqn:Hx.
        -- cbn [insert].
           destruct (key_lt_nan x y (or_introl Hx)) as [e ->]. cbn. eauto.
        -- destruct (insert key_lt x [y]) as [s|e] eqn:E; [|cbn; eauto].
           cbn [res_bind].
           destruct (insert_Forall key_lt
                       (fun y => is_nan (base_price y) = false)
                       x [y] s E Hx) as [Hs Hslen];
             [repeat constructor; assumption|].
           apply IH.
           ++ exists z. split; [|assumption].
              apply in_or_app. cbn in Hz.
              destruct Hz as [Hz|[Hz|Hz]].
              ** subst z. rewrite Hy in Hnan. discriminate.
              ** subst z. rewrite Hx in Hnan. discriminate.
              ** now right.
           ++ rewrite length_app in *. cbn in *. lia.
           ++ now left.
Qed.

(** X11.  One price that is a NaN fails the whole search: when the merged
    list holds at least two results and one of them has a NaN price (an
    operator sent the price "NaN", which reads as a decimal and is kept by
    the mapper), the sort compares it, the comparison raises, and
    [search_all_operators] raises instead of returning the other
    results. *)
Theorem nan_price_fails_the_search :
  forall svc request net x,
    In x (merged svc request net) ->
    is_nan (base_price x) = true ->
    (2 <= List.length (merged svc request net))%nat ->
    exists e,
      result_of (search_all_operators request net svc) = Raise e.
Proof.
  intros svc request net x Hx Hnan Hlen.
  rewrite search_all_operators_run. cbn [result_of fst].
  apply (sort_from_nan (merged svc request net) []).
  - exists x. split; assumption.
  - exact Hlen.
  - left. constructor.
Qed.

Lemma nan_price_fails_the_search_witness :
  exists e,
    result_of (search_all_operators Scenario.request Cases.net_nan
                 Scenario.only_aaa) = Raise e.
Proof.
  apply (nan_price_fails_the_search
           Scenario.only_aaa Scenario.request Cases.net_nan
           {| operator_code := VStr "AAA"; route_id := VStr "R1";
              departure_time := VStr "09:00"; arrival_time := VNone;
              duration_minutes := VInt 0; available_seats := VInt 0;
              available_vehicles := VInt 0;
              base_price := DNaN false false 0; currency := VStr "EUR";
              booking_reference := VNone; amenities := VList [];
              vessel_name := VStr "" |}).
  - right. left. reflexivity.
  - reflexivity.
  - apply le_n.
Defined.

(** ** A price that is null *)

(** X8.  An entry whose price is [null] or a boolean is dropped, by either
    mapper; an entry that has no price at all is kept, with the price 0. *)
Theorem null_price_is_dropped :
  forall operator kv,
    (Py.dict_find kv "price" = Some VNone
     \/ (exists b, Py.dict_find kv "price" = Some (VBool b)) ->
     LykoAggregatorAdapter.build_result operator (VDict kv)
     = Raise ConversionSyntax)
    /\ (Py.dict_find kv "price" = None ->
        LykoAggregatorAdapter.build_result operator (VDict kv)
        = Ok (Lyko_normalized operator kv (DFin false 0 0)))
    /\ (Py.dict_find kv "fare" = Some VNone
        \/ (exists b, Py.dict_find kv "fare" = Some (VBool b)) ->
        CTNDirectAdapter.build_result (VDict kv) = Raise ConversionSyntax)
    /\ (Py.dict_find kv "fare" = None ->
        CTNDirectAdapter.build_result (VDict kv)
        = Ok (CTN_normalized kv (DFin false 0 0))).
Proof.
  intros operator kv.
  unfold LykoAggregatorAdapter.build_result, CTNDirectAdapter.build_result.
  rewrite Lyko_build_result_with_normalize, CTN_build_result_with_normalize.
  unfold normalize, Py.dict_get.
  split; [|split; [|split]].
  - intros [->|[[|] ->]]; reflexivity.
  - intros ->. reflexivity.
  - intros [->|[[|] ->]]; reflexivity.
  - intros ->. reflexivity.
Qed.

Lemma null_price_is_dropped_witness :
  LykoAggregatorAdapter.build_result Scenario.aaa
    (VDict [("route_id", VStr "R1"); ("price", VNone)])
  = Raise ConversionSyntax
  /\ LykoAggregatorAdapter.build_result Scenario.aaa
       (VDict [("route_id", VStr "R1")])
     = Ok (Lyko_normalized Scenario.aaa [("route_id", VStr "R1")]
             (DFin false 0 0))
  /\ CTNDirectAdapter.build_result
       (VDict [("route_id", VStr "R2"); ("fare", VBool true)])
     = Raise ConversionSyntax.
Proof.
  split; [|split].
  - apply (null_price_is_dropped Scenario.aaa
             [("route_id", VStr "R1"); ("price", VNone)]).
    left. reflexivity.
  - apply (null_price_is_dropped Scenario.aaa [("route_id", VStr "R1")]).
    reflexivity.
  - apply (null_price_is_dropped Scenario.aaa
             [("route_id", VStr "R2"); ("fare", VBool true)]).
    right. exists true. reflexivity.
Defined.

(** ** A reply without the list *)

(** X13.  A reply with status 200 whose body is an object that lacks the
    list of entries ("results" for Lyko, "sailings" for CTN) is taken as a
    reply with no entry: the search returns the empty list and leaves no log
    record, unlike a body that is not an object, which is logged as an
    error. *)
Theorem absent_list_is_silently_empty :
  forall operator request net response kv,
    status response = 200 ->
    json_body response = Ok (VDict kv) ->
    (net (LykoAggregatorAdapter.search_call operator request) = Ok response ->
     Py.dict_find kv "results" = None ->
     LykoAggregatorAdapter.search_routes operator request net tt
     = (Ok [], tt, [Call (LykoAggregatorAdapter.search_call operator request)]))
    /\ (net (CTNDirectAdapter.search_call operator request) = Ok response ->
        Py.dict_find kv "sailings" = None ->
        CTNDirectAdapter.search_routes operator request net tt
        = (Ok [], tt, [Call (CTNDirectAdapter.search_call operator request)])).
Proof.
  intros operator request net response kv Hs Hb. split; intros Hn Hk.
  - rewrite Lyko_search_routes_run. cbv zeta. rewrite Hn, Hs, Hb.
    cbn [Z.eqb Pos.eqb]. unfold entries, Py.get, Py.dict_get. rewrite Hk.
    reflexivity.
  - rewrite CTN_search_routes_run. cbv zeta. rewrite Hn, Hs, Hb.
    cbn [Z.eqb Pos.eqb]. unfold entries, Py.get, Py.dict_get. rewrite Hk.
    reflexivity.
Qed.

Lemma absent_list_is_silently_empty_witness :
  LykoAggregatorAdapter.search_routes Scenario.aaa Scenario.request
    (fun _ => Scenario.reply 200 (VDict [("count", VInt 0)])) tt
  = (Ok [], tt,
     [Call (LykoAggregatorAdapter.search_call Scenario.aaa Scenario.request)]).
Proof.
  apply (absent_list_is_silently_empty
           Scenario.aaa Scenario.request
           (fun _ => Scenario.reply 200 (VDict [("count", VInt 0)]))
           {| status := 200; json_body := Ok (VDict [("count", VInt 0)]);
              text_body := Ok "" |}
           [("count", VInt 0)]);
    reflexivity.
Defined.

(** ** Where the log records of a search come from *)

Lemma warnings_records {A B} logger prefix (build : A -> res B) items :
  Forall (fun ev => exists msg, ev = Log WARNING logger msg)
         (warnings logger prefix build items).
Proof.
  induction items as [|item rest IH]; cbn; [constructor|].
  destruct (build item); cbn; [exact IH|].
  constructor; [eauto | exact IH].
Qed.

Lemma concrete_safe_events adapter request net :
  concrete adapter ->
  exists records,
    safe_events adapter request net
    = Call (search_call_of adapter request) :: records
    /\ Forall (fun ev =>
                 exists lv msg,
                   ev = Log lv (adapter_logger (Adapter.operator adapter)) msg
                   /\ lv <> INFO)
              records.
Proof.
  assert (Hw : forall A B logger prefix (build : A -> res B) items,
             Forall (fun ev => exists lv msg,
                         ev = Log lv logger msg /\ lv <> INFO)
                    (warnings logger prefix build items)).
  { intros. eapply Forall_impl; [|apply warnings_records].
    intros ev [msg ->]. exists WARNING, msg. split; [reflexivity|discriminate]. }
  assert (He : forall logger msg,
             Forall (fun ev => exists lv m,
                         ev = Log lv logger m /\ lv <> INFO)
                    [Log ERROR logger msg]).
  { intros. repeat constructor. exists ERROR, msg.
    split; [reflexivity|discriminate]. }
  unfold safe_events, searched, search_call_of.
  intros [H|H]; rewrite H;
    cbn [Adapter.search_routes Adapter.class Adapter.operator
         LykoAggregatorAdapter.new CTNDirectAdapter.new].
  - rewrite Lyko_search_routes_run. cbv zeta. unfold search_error.
    destruct (net _) as [response|e];
      [|eexists; split; [reflexivity | apply He]].
    destruct (status response =? 200).
    + destruct (json_body response) as [data|e];
        [|eexists; split; [reflexivity | apply He]].
      destruct (entries "results" data);
        [|eexists; split; [reflexivity | apply He]].
      eexists. split; [cbn; rewrite app_nil_r; reflexivity | apply Hw].
    + destruct (text_body response);
        eexists; (split; [reflexivity | apply He]).
  - rewrite CTN_search_routes_run. cbv zeta. unfold search_error.
    destruct (net _) as [response|e];
      [|eexists; split; [reflexivity | apply He]].
    destruct (status response =? 200);
      [|eexists; split; [reflexivity | apply He]].
    destruct (json_body response) as [data|e];
      [|eexists; split; [reflexivity | apply He]].
    destruct (entries "sailings" data);
      [|eexists; split; [reflexivity | apply He]].
    eexists. split; [cbn; rewrite app_nil_r; reflexivity | apply Hw].
Qed.

(** X15.  During a search over adapters of the two concrete classes no
    exception reaches the service: every log record of the search is a
    warning or an error written by an adapter of the map under its own
    logger "ferry_adapter.<code>"; the service's logger writes nothing. *)
Theorem search_logs_come_from_adapters :
  forall svc request net lv lg msg,
    Forall (fun entry => concrete (snd entry)) (adapters svc) ->
    In (Log lv lg msg) (events_of (search_all_operators request net svc)) ->
    lv <> INFO
    /\ lg <> logger
    /\ exists entry,
         In entry (adapters svc)
         /\ lg = adapter_logger (Adapter.operator (snd entry)).
Proof.
  intros svc request net lv lg msg Hc Hin.
  rewrite search_all_operators_run in Hin. cbn [events_of snd] in Hin.
  apply in_concat in Hin. destruct Hin as (evs & Hevs & Hev).
  apply in_map_iff in Hevs. destruct Hevs as (entry & <- & Hentry).
  rewrite Forall_forall in Hc.
  destruct (concrete_safe_events (snd entry) request net (Hc entry Hentry))
    as (records & Heq & Hrec).
  rewrite Heq in Hev. destruct Hev as [Hev|Hev]; [discriminate|].
  rewrite Forall_forall in Hrec.
  destruct (Hrec _ Hev) as (lv' & msg' & E & Hlv).
  inversion E; subst. split; [exact Hlv|]. split; [|eauto].
  unfold adapter_logger, logger. discriminate.
Qed.

Lemma search_logs_come_from_adapters_witness :
  ERROR <> INFO
  /\ "ferry_adapter.AAA" <> logger
  /\ exists entry,
       In entry (adapters Scenario.aaa_and_ctn)
       /\ "ferry_adapter.AAA" = adapter_logger (Adapter.operator (snd entry)).
Proof.
  apply (search_logs_come_from_adapters
           Scenario.aaa_and_ctn Scenario.request Scenario.net_down
           ERROR "ferry_adapter.AAA"
           "Search error: Cannot connect to host").
  - constructor; [left; reflexivity|].
    constructor; [right; reflexivity | constructor].
  - vm_compute. right. left. reflexivity.
Defined.

(** ** Registering twice *)

Lemma dict_find_None {A} (kv : list (string * A)) k :
  Py.dict_find kv k = None <-> ~ In k (map fst kv).
Proof.
  induction kv as [|[k0 v0] rest IH]; cbn.
  - tauto.
  - destruct (String.eqb_spec k0 k) as [->|Hne].
    + split; [discriminate | intros H; exfalso; apply H; now left].
    + rewrite IH. tauto.
Qed.

Lemma assoc_ext {A} (l1 : list (string * A)) :
  forall l2,
    map fst l1 = map fst l2 ->
    NoDup (map fst l1) ->
    (forall k, Py.dict_find l1 k = Py.dict_find l2 k) ->
    l1 = l2.
Proof.
  induction l1 as [|[k1 v1] r1 IH]; intros [|[k2 v2] r2] Hk Hnd Hf;
    try discriminate; [reflexivity|].
  cbn in Hk. inversion Hk as [[Hkey Hrest]]. subst k2.
  inversion Hnd as [|? ? Hout Hnd1]; subst.
  pose proof (Hf k1) as H1. cbn in H1. rewrite String.eqb_refl in H1.
  inversion H1; subst v2. f_equal.
  apply IH; [assumption | assumption |].
  intros k. pose proof (Hf k) as H. cbn in H.
  destruct (String.eqb_spec k1 k) as [->|Hne]; [|exact H].
  transitivity (@None A).
  - now apply dict_find_None.
  - symmetry. apply dict_find_None. now rewrite <- Hrest.
Qed.

Lemma registered_NoDup construct operators :
  forall start,
    NoDup (map fst start) ->
    NoDup (map fst (registered construct operators start)).
Proof.
  unfold registered.
  induction operators as [|operator rest IH]; intros start H; [exact H|].
  cbn [fold_left]. apply IH.
  destruct (construct operator); [now apply dict_set_NoDup | exact H].
Qed.

Lemma registered_same_keys construct operators :
  forall start,
    (forall operator,
        In operator operators -> is_ok (construct operator) = true ->
        In (code operator) (map fst start)) ->
    map fst (registered construct operators start) = map fst start.
Proof.
  unfold registered.
  induction operators as [|operator rest IH]; intros start H; [reflexivity|].
  cbn [fold_left].
  destruct (construct operator) as [adapter|e] eqn:E.
  - rewrite IH.
    + apply dict_set_keys. apply H; [now left | now rewrite E].
    + intros op Hop Hok. rewrite dict_set_keys.
      * apply H; [now right | assumption].
      * apply H; [now left | now rewrite E].
  - apply IH. intros op Hop Hok. apply H; [now right | assumption].
Qed.

Lemma registered_has_key construct operators start operator :
  In operator operators -> is_ok (construct operator) = true ->
  In (code operator) (map fst (registered construct operators start)).
Proof.
  intros Hin Hok.
  destruct (in_dec string_dec (code operator)
                   (map fst (registered construct operators start)))
    as [Hyes|Hno]; [exact Hyes|exfalso].
  apply dict_find_None in Hno. rewrite registered_find in Hno.
  destruct (find _ (rev operators)) as [found|] eqn:F.
  - apply find_some in F. destruct F as [_ F].
    apply andb_true_iff in F as [_ F].
    destruct (construct found); [discriminate Hno | discriminate F].
  - pose proof (find_none _ _ F operator) as Hnone. cbv beta in Hnone.
    rewrite String.eqb_refl, Hok in Hnone.
    discriminate Hnone. now apply in_rev in Hin.
Qed.

Lemma registered_twice construct operators start :
  NoDup (map fst start) ->
  registered construct operators (registered construct operators start)
  = registered construct operators start.
Proof.
  intros Hnd.
  set (once := registered construct operators start).
  assert (Hkeys : map fst (registered construct operators once)
                  = map fst once).
  { apply registered_same_keys. intros operator Hin Hok.
    now apply registered_has_key. }
  apply assoc_ext.
  - exact Hkeys.
  - rewrite Hkeys. now apply registered_NoDup.
  - intros k. rewrite registered_find. subst once.
    rewrite !registered_find.
    destruct (find _ (rev operators)); reflexivity.
Qed.

(** X14.  Registering the same operators a second time leaves the keys of
    the adapter map and their order as the first registration left them,
    and the adapter that it puts under each key has the class and the
    configuration of the adapter that was there. *)
Theorem initialize_twice :
  forall operators net1 net2 svc,
    NoDup (map fst (adapters svc)) ->
    registrations
      (adapters (state_of (initialize operators net2
                             (state_of (initialize operators net1 svc)))))
    = registrations (adapters (state_of (initialize operators net1 svc))).
Proof.
  intros operators net1 net2 svc Hnd.
  rewrite !initialize_run. cbn [state_of fst snd adapters].
  now rewrite registered_twice.
Qed.

Lemma initialize_twice_witness :
  registrations
    (adapters (state_of (initialize [Scenario.zzz; Scenario.off; Scenario.ctn]
                           Scenario.net_tie
                           (state_of (initialize
                                        [Scenario.zzz; Scenario.off;
                                         Scenario.ctn]
                                        Scenario.net_down Scenario.only_aaa)))))
  = registrations
      (adapters (state_of (initialize [Scenario.zzz; Scenario.off; Scenario.ctn]
                             Scenario.net_down Scenario.only_aaa))).
Proof.
  apply (initialize_twice [Scenario.zzz; Scenario.off; Scenario.ctn]
           Scenario.net_down Scenario.net_tie Scenario.only_aaa).
  repeat constructor. intros [].
Defined.
